(** * DropInDataEngin: natural-language-to-SQL endpoint

    A shallow embedding of the Express backend (the [POST /query] route and
    its helper [generateSQL]) together with the properties its
    specification states about it.

    - JavaScript strings are sequences of UTF-16 code units.
    - JSON data (request bodies, provider responses, row sets, response
      bodies) is an inductive type of JavaScript values.
    - [async] functions are finite interaction programs: every [await] on an
      outbound call is a node whose continuation receives the reply. *)

From Stdlib Require Import Strings.String Strings.Ascii.
From Stdlib Require Import List NArith Bool Arith Lia.
From Stdlib Require Import Floats.PrimFloat.
Import ListNotations.

Open Scope string_scope.
Open Scope list_scope.

(** ** JavaScript strings *)

Module JsString.

Definition code_unit := N.
Definition jsstring := list code_unit.

(** An ASCII literal of the source, as code units. *)
Definition lit (s : string) : jsstring :=
  map N_of_ascii (list_ascii_of_string s).

Definition dquote : code_unit := 34%N.
Definition backtick : code_unit := 96%N.
Definition rarrow : code_unit := 8594%N.
Definition newline : code_unit := 10%N.

Definition jsstring_eqb (a b : jsstring) : bool :=
  if list_eq_dec N.eq_dec a b then true else false.

(** [WhiteSpace] and [LineTerminator] of ECMAScript: the code units that
    [String.prototype.trim] removes. *)
Definition is_ws (c : code_unit) : bool :=
  ((9 <=? c) && (c <=? 13) || (c =? 32) || (c =? 160) || (c =? 5760)
   || (8192 <=? c) && (c <=? 8202) || (c =? 8232) || (c =? 8233)
   || (c =? 8239) || (c =? 8287) || (c =? 12288) || (c =? 65279))%N.

Fixpoint trimStart (s : jsstring) : jsstring :=
  match s with
  | [] => []
  | c :: s' => if is_ws c then trimStart s' else s
  end.

Definition trimEnd (s : jsstring) : jsstring := rev (trimStart (rev s)).

Definition all_ws (s : jsstring) : bool := forallb is_ws s.

(** [s.trim()] *)
Definition trim (s : jsstring) : jsstring := trimEnd (trimStart s).

(** *** Regular expressions that are a literal

    Both patterns of the source are plain character sequences.  [eqc p c]
    says that pattern character [p] accepts input character [c]. *)

Definition exact (p c : code_unit) : bool := (p =? c)%N.

(** [Canonicalize] under the [i] flag without [u]: upper-casing, except that
    a character outside ASCII is never mapped into ASCII.  On ASCII it maps
    [a-z] to [A-Z]; the patterns here are ASCII, so only this part of the
    mapping can make a comparison succeed. *)
Definition canonicalize (c : code_unit) : code_unit :=
  if ((97 <=? c) && (c <=? 122))%N then (c - 32)%N else c.

Definition ignore_case (p c : code_unit) : bool :=
  (canonicalize p =? canonicalize c)%N.

(** Does the pattern match at the start of [s]? *)
Fixpoint match_here (eqc : code_unit -> code_unit -> bool)
         (pat s : jsstring) : bool :=
  match pat, s with
  | [], _ => true
  | p :: pat', c :: s' => eqc p c && match_here eqc pat' s'
  | _ :: _, [] => false
  end.

(** The scan of [s.replace(/pat/g, "")] for a non-empty literal pattern:
    from left to right, a match at the current position is dropped whole and
    the scan resumes after it; otherwise the character is kept.  [skip]
    counts the characters of the current match still to drop. *)
Fixpoint delete_matches (eqc : code_unit -> code_unit -> bool)
         (pat : jsstring) (skip : nat) (s : jsstring) : jsstring :=
  match s with
  | [] => []
  | c :: s' =>
      match skip with
      | S k => delete_matches eqc pat k s'
      | O =>
          if match_here eqc pat s
          then delete_matches eqc pat (length pat - 1) s'
          else c :: delete_matches eqc pat 0 s'
      end
  end.

Definition replace_all (eqc : code_unit -> code_unit -> bool)
           (pat s : jsstring) : jsstring :=
  delete_matches eqc pat 0 s.

(** Is there an occurrence of [pat] somewhere in [s]? *)
Fixpoint occurs (eqc : code_unit -> code_unit -> bool)
         (pat s : jsstring) : bool :=
  match_here eqc pat s ||
  match s with
  | [] => false
  | _ :: s' => occurs eqc pat s'
  end.

End JsString.
Import JsString.

(** ** The Markdown clean-up of [generateSQL] *)

Definition fence : jsstring := [backtick; backtick; backtick].
Definition fence_sql : jsstring := fence ++ lit "sql".

(** [text.replace(/```sql/gi, "").replace(/```/g, "").trim()] *)
Definition cleanSQL (text : jsstring) : jsstring :=
  trim (replace_all exact fence (replace_all ignore_case fence_sql text)).

(** Number of backticks [s] starts with. *)
Fixpoint leading_ticks (s : jsstring) : nat :=
  match s with
  | c :: s' => if (c =? backtick)%N then S (leading_ticks s') else 0
  | [] => 0
  end.

(** ** JavaScript values *)

#[warnings="-register-all"]
Inductive value : Type :=
| JUndefined
| JNull
| JBool (b : bool)
| JNum (x : float)
| JStr (s : jsstring)
| JArr (items : list value)
| JObj (fields : list (jsstring * value)).

(** [ToBoolean]: what [!v] and [a || b] test.  A number is falsy when it is
    [+0], [-0] or [NaN]. *)
Definition to_boolean (v : value) : bool :=
  match v with
  | JUndefined | JNull => false
  | JBool b => b
  | JNum x => ltb 0 (abs x)
  | JStr [] => false
  | JStr (_ :: _) => true
  | JArr _ | JObj _ => true
  end.

Definition is_nullish (v : value) : bool :=
  match v with
  | JUndefined | JNull => true
  | _ => false
  end.

(** [a || b] *)
Definition js_or (a b : value) : value := if to_boolean a then a else b.

(** Own property of an object that holds JSON data. *)
Fixpoint lookup (k : jsstring) (fields : list (jsstring * value)) : value :=
  match fields with
  | [] => JUndefined
  | (k', v) :: rest => if jsstring_eqb k k' then v else lookup k rest
  end.

Definition has_own (k : jsstring) (fields : list (jsstring * value)) : bool :=
  existsb (fun kv => jsstring_eqb k (fst kv)) fields.

(** [v?.k] for a property name [k] that no built-in prototype defines
    ([candidates], [content], [parts], [text], [data], [nlQuery]): only an
    object can have it, as an own property. *)
Definition opt_field (v : value) (k : jsstring) : value :=
  match v with
  | JObj fields => lookup k fields
  | _ => JUndefined
  end.

(** [v?.[0]] *)
Definition opt_first (v : value) : value :=
  match v with
  | JArr (x :: _) => x
  | JStr (c :: _) => JStr [c]
  | JObj fields => lookup (lit "0") fields
  | _ => JUndefined
  end.

(** What the host provides and the source only names: the rendering of a
    number inside a template literal ([Number::toString]), the pretty
    printer [JSON.stringify(v, null, 2)] (a string, or [undefined] for
    [undefined]) and the API key of the process environment. *)
Class Host : Type := {
  number_to_string : float -> jsstring;
  JSON_stringify : value -> value;
  GEMINI_API_KEY : value
}.

(** [ToString], as a template literal applies it; [None] is a [TypeError].
    A JSON object is rendered by [Object.prototype.toString] unless an own
    property named [toString] hides it: that property holds JSON data, which
    is not callable, and [valueOf] cannot yield a primitive either. *)
Fixpoint to_string {host : Host} (v : value) : option jsstring :=
  match v with
  | JUndefined => Some (lit "undefined")
  | JNull => Some (lit "null")
  | JBool true => Some (lit "true")
  | JBool false => Some (lit "false")
  | JNum x => Some (number_to_string x)
  | JStr s => Some s
  | JArr items =>
      (fix join (l : list value) : option jsstring :=
         match l with
         | [] => Some []
         | x :: rest =>
             let elem := if is_nullish x then Some [] else to_string x in
             match elem, rest with
             | None, _ => None
             | Some e, [] => Some e
             | Some e, _ :: _ =>
                 match join rest with
                 | Some r => Some (e ++ lit "," ++ r)
                 | None => None
                 end
             end
         end) items
  | JObj fields =>
      if has_own (lit "toString") fields then None
      else Some (lit "[object Object]")
  end.

(** ** Asynchronous programs *)

(** A thrown or rejected error, with the two properties the source reads:
    [err.response] and [err.message]. *)
Record js_error : Type := {
  err_response : value;
  err_message : value
}.

Definition TypeError (msg : string) : js_error :=
  {| err_response := JUndefined; err_message := JStr (lit msg) |}.

(** Settlement of the promise of [axios.post]: [res.data], or the error. *)
Inductive axios_result : Type :=
| AxFulfilled (data : value)
| AxRejected (err : js_error).

(** Settlement of the promise of [db.query]: the pair [[rows, fields]], or
    the driver's error. *)
Inductive db_result : Type :=
| DbFulfilled (rows fields : value)
| DbRejected (err : js_error).

Inductive console_level : Type := LvlLog | LvlError.

Inductive prog (A : Type) : Type :=
| Ret (a : A)
| Throw (e : js_error)
| AxiosPost (url : jsstring) (data config : value)
            (k : axios_result -> prog A)
| DbQuery (sql : jsstring) (k : db_result -> prog A)
| Console (lvl : console_level) (label : jsstring) (arg : value)
          (k : prog A).

Arguments Ret {A} a.
Arguments Throw {A} e.
Arguments AxiosPost {A} url data config k.
Arguments DbQuery {A} sql k.
Arguments Console {A} lvl label arg k.

Fixpoint bind {A B : Type} (p : prog A) (f : A -> prog B) : prog B :=
  match p with
  | Ret a => f a
  | Throw e => Throw e
  | AxiosPost url data config k =>
      AxiosPost url data config (fun r => bind (k r) f)
  | DbQuery sql k => DbQuery sql (fun r => bind (k r) f)
  | Console lvl label arg k => Console lvl label arg (bind k f)
  end.

(** [try { p } catch (err) { h err }] *)
Fixpoint try_catch {A : Type} (p : prog A) (h : js_error -> prog A)
  : prog A :=
  match p with
  | Ret a => Ret a
  | Throw e => h e
  | AxiosPost url data config k =>
      AxiosPost url data config (fun r => try_catch (k r) h)
  | DbQuery sql k => DbQuery sql (fun r => try_catch (k r) h)
  | Console lvl label arg k => Console lvl label arg (try_catch k h)
  end.

Notation "x <- p ;; q" := (bind p (fun x => q))
  (at level 61, p at next level, right associativity).
Notation "p ;;; q" := (bind p (fun _ => q))
  (at level 61, right associativity).

(** [await axios.post(url, data, config)]: the response's [data], or the
    rejection thrown at the [await]. *)
Definition await_axios_post (url : jsstring) (data config : value)
  : prog value :=
  AxiosPost url data config
    (fun r => match r with
              | AxFulfilled d => Ret d
              | AxRejected e => Throw e
              end).

(** [const [rows] = await db.query(sql)] *)
Definition await_db_query (sql : jsstring) : prog value :=
  DbQuery sql
    (fun r => match r with
              | DbFulfilled rows _ => Ret rows
              | DbRejected e => Throw e
              end).

Definition console_error (label : string) (arg : value) : prog unit :=
  Console LvlError (lit label) arg (Ret tt).

Definition console_log (label : jsstring) (arg : value) : prog unit :=
  Console LvlLog label arg (Ret tt).

(** ** [generateSQL] *)

Definition join_lines (lines : list jsstring) : jsstring :=
  match lines with
  | [] => []
  | l :: rest => l ++ flat_map (fun x => newline :: x) rest
  end.

Definition schemaDescription : jsstring :=
  join_lines [
    [];
    lit "You are an AI SQL generator. Convert the user's request into a valid MySQL query for the database " ++ [dquote] ++ lit "daily_job_automotive" ++ [dquote] ++ lit ".";
    [];
    lit "Below is the database schema and relationships.";
    [];
    lit "TABLES AND FIELDS:";
    [];
    lit "1. job_category  ";
    lit "   - id (INT, Primary Key)  ";
    lit "   - name (VARCHAR)  ";
    lit "   Purpose: Defines different job categories like Electrical, Mechanical, Bodywork, etc.";
    [];
    lit "2. job_fare  ";
    lit "   - id (INT, Primary Key)  ";
    lit "   - category_id (FK " ++ [rarrow] ++ lit " job_category.id)  ";
    lit "   - job_name (VARCHAR)  ";
    lit "   - base_rate (DECIMAL)  ";
    lit "   Purpose: Stores base rates or pricing for each job type under a category.";
    [];
    lit "3. resource_skill  ";
    lit "   - id (INT, Primary Key)  ";
    lit "   - skill_name (VARCHAR)  ";
    lit "   Purpose: List of technician or employee skills.";
    [];
    lit "4. franchise  ";
    lit "   - id (INT, Primary Key)  ";
    lit "   - name (VARCHAR)  ";
    lit "   Purpose: Represents the franchise or business branch.";
    [];
    lit "5. brand  ";
    lit "   - id (INT, Primary Key)  ";
    lit "   - name (VARCHAR)  ";
    lit "   Purpose: Stores vehicle brand names (e.g., Toyota, Ford, BMW).";
    [];
    lit "6. location  ";
    lit "   - id (INT, Primary Key)  ";
    lit "   - name (VARCHAR)  ";
    lit "   - address (VARCHAR)  ";
    lit "   Purpose: Physical workshop or operational locations.";
    [];
    lit "7. resource  ";
    lit "   - id (INT, Primary Key)  ";
    lit "   - name (VARCHAR)  ";
    lit "   - role (ENUM: Admin, Supervisor, Technician)  ";
    lit "   - skill_id (FK " ++ [rarrow] ++ lit " resource_skill.id)  ";
    lit "   - location_id (FK " ++ [rarrow] ++ lit " location.id)  ";
    lit "   - franchise_id (FK " ++ [rarrow] ++ lit " franchise.id)  ";
    lit "   Purpose: Employee or technician master data.";
    [];
    lit "8. job_card  ";
    lit "   - id (INT, Primary Key)  ";
    lit "   - jc_no (VARCHAR)  ";
    lit "   - job_category_id (FK " ++ [rarrow] ++ lit " job_category.id)  ";
    lit "   - brand_id (FK " ++ [rarrow] ++ lit " brand.id)  ";
    lit "   - assigned_to (FK " ++ [rarrow] ++ lit " resource.id)  ";
    lit "   - assigned_by (FK " ++ [rarrow] ++ lit " resource.id)  ";
    lit "   - start_time (DATETIME)  ";
    lit "   - end_time (DATETIME)  ";
    lit "   - status (ENUM: Pending, InProgress, Hold, Completed)  ";
    lit "   - remarks (VARCHAR)  ";
    lit "   Purpose: Represents a single job assigned to a technician for a specific vehicle or work item.";
    [];
    lit "9. job_card_photo  ";
    lit "   - id (INT, Primary Key)  ";
    lit "   - job_card_id (FK " ++ [rarrow] ++ lit " job_card.id)  ";
    lit "   - photo_type (ENUM: Before, After)  ";
    lit "   - photo_url (VARCHAR)  ";
    lit "   - uploaded_by (INT)  ";
    lit "   - uploaded_on (DATETIME)  ";
    lit "   Purpose: Stores before and after job photos linked to a job card.";
    [];
    lit "10. qc_check  ";
    lit "    - id (INT, Primary Key)  ";
    lit "    - job_card_id (FK " ++ [rarrow] ++ lit " job_card.id)  ";
    lit "    - checked_by (INT)  ";
    lit "    - status (ENUM: Approved, Rejected)  ";
    lit "    - remarks (VARCHAR)  ";
    lit "    - checked_on (DATETIME)  ";
    lit "    Purpose: Quality control verification for completed jobs.";
    [];
    lit "11. delivery_order  ";
    lit "    - id (INT, Primary Key)  ";
    lit "    - job_card_id (FK " ++ [rarrow] ++ lit " job_card.id)  ";
    lit "    - do_number (VARCHAR)  ";
    lit "    - completed_on (DATETIME)  ";
    lit "    - status (ENUM: Pending, Completed)  ";
    lit "    Purpose: Delivery record for completed jobs.";
    [];
    lit "12. lpo  ";
    lit "    - id (INT, Primary Key)  ";
    lit "    - job_card_id (FK " ++ [rarrow] ++ lit " job_card.id)  ";
    lit "    - lpo_number (VARCHAR)  ";
    lit "    - amount (DECIMAL)  ";
    lit "    - linked_do (FK " ++ [rarrow] ++ lit " delivery_order.id)  ";
    lit "    Purpose: Local purchase order details linked to job or delivery order.";
    [];
    lit "13. invoice  ";
    lit "    - id (INT, Primary Key)  ";
    lit "    - job_card_id (FK " ++ [rarrow] ++ lit " job_card.id)  ";
    lit "    - invoice_no (VARCHAR)  ";
    lit "    - invoice_date (DATE)  ";
    lit "    - total_amount (DECIMAL)  ";
    lit "    Purpose: Billing and invoice details linked to a job card.";
    [];
    lit "RELATIONSHIPS SUMMARY:";
    lit "- job_fare.category_id " ++ [rarrow] ++ lit " job_category.id  ";
    lit "- resource.skill_id " ++ [rarrow] ++ lit " resource_skill.id  ";
    lit "- resource.location_id " ++ [rarrow] ++ lit " location.id  ";
    lit "- resource.franchise_id " ++ [rarrow] ++ lit " franchise.id  ";
    lit "- job_card.job_category_id " ++ [rarrow] ++ lit " job_category.id  ";
    lit "- job_card.brand_id " ++ [rarrow] ++ lit " brand.id  ";
    lit "- job_card.assigned_to / assigned_by " ++ [rarrow] ++ lit " resource.id  ";
    lit "- job_card_photo.job_card_id " ++ [rarrow] ++ lit " job_card.id  ";
    lit "- qc_check.job_card_id " ++ [rarrow] ++ lit " job_card.id  ";
    lit "- delivery_order.job_card_id " ++ [rarrow] ++ lit " job_card.id  ";
    lit "- lpo.job_card_id " ++ [rarrow] ++ lit " job_card.id  ";
    lit "- lpo.linked_do " ++ [rarrow] ++ lit " delivery_order.id  ";
    lit "- invoice.job_card_id " ++ [rarrow] ++ lit " job_card.id";
    [];
    lit "RULES:";
    lit "- Output only valid MySQL syntax.";
    lit "- Do not explain; return only the SQL.";
    lit "- When grouping or aggregating, use proper joins and aliases.";
    []
  ].

(** An object literal of the source. *)
Definition obj (fields : list (string * value)) : value :=
  JObj (map (fun kv => (lit (fst kv), snd kv)) fields).

Definition GEMINI_URL : jsstring :=
  lit "https://generativelanguage.googleapis.com/v1beta/models/gemini-2.5-flash:generateContent".

(** The template literal [`${schemaDescription}\nUser: ${nlQuery}`], with
    [nlQuery] already a string. *)
Definition build_prompt (q : jsstring) : jsstring :=
  schemaDescription ++ newline :: lit "User: " ++ q.

(** The conversion of [nlQuery] to a string can throw. *)
Definition prompt_of {host : Host} (nlQuery : value) : prog jsstring :=
  match to_string nlQuery with
  | Some q => Ret (build_prompt q)
  | None => Throw (TypeError "Cannot convert object to primitive value")
  end.

(** [res.data?.candidates?.[0]?.content?.parts?.[0]?.text] *)
Definition first_candidate_text (data : value) : value :=
  let candidate := opt_first (opt_field data (lit "candidates")) in
  let part := opt_first (opt_field (opt_field candidate (lit "content"))
                                   (lit "parts")) in
  opt_field part (lit "text").

(** [t?.trim() || ""]: a nullish [t] short-circuits to [undefined], a string
    is trimmed, and any other value has no callable [trim]. *)
Definition trimmed_or_empty (t : value) : prog jsstring :=
  match t with
  | JUndefined | JNull => Ret []
  | JStr s => Ret (trim s)
  | _ => Throw (TypeError "text?.trim is not a function")
  end.

(** The label of the success log: a brain emoji (a surrogate pair) and the
    text. *)
Definition generated_label : jsstring :=
  [55358%N; 56800%N] ++ lit " Gemini generated SQL:".

(** The two arguments of [axios.post] after the URL. *)
Definition gemini_request (prompt : jsstring) : value :=
  obj [("contents",
        JArr [obj [("parts", JArr [obj [("text", JStr prompt)]])]])].

Definition gemini_config {host : Host} : value :=
  obj [("params", obj [("key", GEMINI_API_KEY)])].

(** [generateSQL(nlQuery)]; [None] is [null].  The prompt is built before
    the [try] block.  Each console record keeps the label and the second
    argument of the call. *)
Definition generateSQL {host : Host} (nlQuery : value)
  : prog (option jsstring) :=
  prompt <- prompt_of nlQuery ;;
  try_catch
    (data <- await_axios_post GEMINI_URL (gemini_request prompt)
               gemini_config ;;
     text <- trimmed_or_empty (first_candidate_text data) ;;
     match text with
     | [] =>
         console_error "Empty Gemini response:" (JSON_stringify data) ;;;
         Ret None
     | _ :: _ =>
         let cleaned := cleanSQL text in
         console_log generated_label (JStr cleaned) ;;; Ret (Some cleaned)
     end)
    (fun err =>
       console_error "AI Error:"
         (js_or (opt_field (err_response err) (lit "data"))
                (err_message err)) ;;;
       Ret None).

(** ** The [POST /query] route *)

Record response : Type := {
  status : nat;
  body : value
}.

(** [res.status(code).json(payload)]; [res.json(payload)] is status 200. *)
Definition send (code : nat) (payload : value) : prog response :=
  Ret {| status := code; body := payload |}.

(** [const { nlQuery } = req.body] *)
Definition destructure_nlQuery (req_body : value) : prog value :=
  if is_nullish req_body
  then Throw (TypeError "Cannot destructure property 'nlQuery' of 'req.body'")
  else Ret (opt_field req_body (lit "nlQuery")).

(** [!sqlQuery] on the result of [generateSQL]. *)
Definition sql_falsy (sqlQuery : option jsstring) : bool :=
  match sqlQuery with
  | None | Some [] => true
  | Some (_ :: _) => false
  end.

(** The handler registered by [app.post("/query", ...)]; its result is the
    response it sends. *)
Definition post_query {host : Host} (req_body : value) : prog response :=
  nlQuery <- destructure_nlQuery req_body ;;
  if negb (to_boolean nlQuery) then
    send 400 (obj [("error", JStr (lit "Missing natural query"))])
  else
    sqlQuery <- generateSQL nlQuery ;;
    if sql_falsy sqlQuery then
      send 500 (obj [("error", JStr (lit "AI failed to generate SQL"))])
    else
      let sql := match sqlQuery with Some s => s | None => [] end in
      try_catch
        (rows <- await_db_query sql ;;
         send 200 (obj [("sql", JStr sql); ("result", rows)]))
        (fun err =>
           console_error "SQL Execution Error:" (err_message err) ;;;
           send 500 (obj [("error", JStr (lit "SQL Execution Failed"));
                          ("details", err_message err);
                          ("sql", JStr sql)])).

(** ** Running a program against the outside world *)

Inductive event : Type :=
| EvAxios (url : jsstring) (data config : value) (r : axios_result)
| EvDb (sql : jsstring) (r : db_result)
| EvConsole (lvl : console_level) (label : jsstring) (arg : value).

Inductive outcome (A : Type) : Type :=
| Returned (a : A)
| Rejected (e : js_error).

Arguments Returned {A} a.
Arguments Rejected {A} e.

Section Run.

(** The provider and the database are arbitrary and may keep state. *)
Context {World : Type}.
Variable axios_post :
  World -> jsstring -> value -> value -> World * axios_result.
Variable db_query : World -> jsstring -> World * db_result.

Fixpoint run {A : Type} (p : prog A) (w : World)
  : World * list event * outcome A :=
  match p with
  | Ret a => (w, [], Returned a)
  | Throw e => (w, [], Rejected e)
  | AxiosPost url data config k =>
      let (w1, r) := axios_post w url data config in
      let '(w2, tr, o) := run (k r) w1 in
      (w2, EvAxios url data config r :: tr, o)
  | DbQuery sql k =>
      let (w1, r) := db_query w sql in
      let '(w2, tr, o) := run (k r) w1 in
      (w2, EvDb sql r :: tr, o)
  | Console lvl label arg k =>
      let '(w2, tr, o) := run k w in
      (w2, EvConsole lvl label arg :: tr, o)
  end.

End Run.

Definition is_db_event (e : event) : bool :=
  match e with
  | EvDb _ _ => true
  | _ => false
  end.

Definition is_axios_success (e : event) : bool :=
  match e with
  | EvAxios _ _ _ (AxFulfilled _) => true
  | _ => false
  end.

(** What [generateSQL] returns for a settlement of the provider call, in
    closed form ([run_generateSQL] relates it to the program). *)
Definition generated (r : axios_result) : option jsstring :=
  match r with
  | AxRejected _ => None
  | AxFulfilled data =>
      match first_candidate_text data with
      | JStr s =>
          match trim s with
          | [] => None
          | c :: t => Some (cleanSQL (c :: t))
          end
      | _ => None
      end
  end.

(** The one console record [generateSQL] writes after the settlement. *)
Definition generation_log {host : Host} (r : axios_result) : event :=
  match r with
  | AxRejected err =>
      EvConsole LvlError (lit "AI Error:")
        (js_or (opt_field (err_response err) (lit "data")) (err_message err))
  | AxFulfilled data =>
      match first_candidate_text data with
      | JUndefined | JNull =>
          EvConsole LvlError (lit "Empty Gemini response:")
            (JSON_stringify data)
      | JStr s =>
          match trim s with
          | [] =>
              EvConsole LvlError (lit "Empty Gemini response:")
                (JSON_stringify data)
          | c :: t =>
              EvConsole LvlLog generated_label (JStr (cleanSQL (c :: t)))
          end
      | _ =>
          EvConsole LvlError (lit "AI Error:")
            (JStr (lit "text?.trim is not a function"))
      end
  end.

Arguments schemaDescription : simpl never.
Arguments build_prompt : simpl never.
Arguments GEMINI_URL : simpl never.
Arguments lit : simpl never.

(** ** Closed forms used to state the properties *)


(** The first candidate's text is absent, or empty once trimmed. *)
Definition text_absent_or_empty (data : value) : bool :=
  match first_candidate_text data with
  | JUndefined | JNull => true
  | JStr s => match trim s with [] => true | _ :: _ => false end
  | _ => false
  end.

Definition missing_query : response :=
  {| status := 400;
     body := obj [("error", JStr (lit "Missing natural query"))] |}.

Definition generation_failed : response :=
  {| status := 500;
     body := obj [("error", JStr (lit "AI failed to generate SQL"))] |}.

(** The response sent after the database call settled. *)
Definition executed (sql : jsstring) (r : db_result) : response :=
  match r with
  | DbFulfilled rows _ =>
      {| status := 200; body := obj [("sql", JStr sql); ("result", rows)] |}
  | DbRejected err =>
      {| status := 500;
         body := obj [("error", JStr (lit "SQL Execution Failed"));
                      ("details", err_message err);
                      ("sql", JStr sql)] |}
  end.

Definition execution_log (r : db_result) : list event :=
  match r with
  | DbFulfilled _ _ => []
  | DbRejected err =>
      [EvConsole LvlError (lit "SQL Execution Error:") (err_message err)]
  end.

(** ** Requests in flight together

    One step of a handler is the settlement of the call it awaits (or a
    console write); the reply is whatever the outside world gives.  Two
    handlers in flight take their steps in any order. *)

Inductive step {A : Type} : prog A -> event -> prog A -> Prop :=
| step_axios url data config k r :
    step (AxiosPost url data config k) (EvAxios url data config r) (k r)
| step_db sql k r :
    step (DbQuery sql k) (EvDb sql r) (k r)
| step_console lvl label arg k :
    step (Console lvl label arg k) (EvConsole lvl label arg) k.

Inductive steps {A : Type} : prog A -> list event -> prog A -> Prop :=
| steps_nil p : steps p [] p
| steps_cons p e p1 tr p2 :
    step p e p1 -> steps p1 tr p2 -> steps p (e :: tr) p2.

Inductive request_id : Type := First | Second.

Definition request_id_eqb (i j : request_id) : bool :=
  match i, j with
  | First, First | Second, Second => true
  | _, _ => false
  end.

Inductive interleave {A : Type}
  : prog A * prog A -> list (request_id * event) -> prog A * prog A -> Prop :=
| interleave_nil c : interleave c [] c
| interleave_first p q e p1 tr c :
    step p e p1 -> interleave (p1, q) tr c ->
    interleave (p, q) ((First, e) :: tr) c
| interleave_second p q e q1 tr c :
    step q e q1 -> interleave (p, q1) tr c ->
    interleave (p, q) ((Second, e) :: tr) c.

Definition thread {A : Type} (i : request_id) (c : prog A * prog A)
  : prog A :=
  match i with
  | First => fst c
  | Second => snd c
  end.

(** The events of request [i] in a joint trace. *)
Definition own (i : request_id) (tr : list (request_id * event))
  : list event :=
  map snd (filter (fun ie => request_id_eqb i (fst ie)) tr).

(** The settlement of the first provider call among some events. *)
Fixpoint llm_reply (evs : list event) : option axios_result :=
  match evs with
  | [] => None
  | EvAxios _ _ _ r :: _ => Some r
  | _ :: rest => llm_reply rest
  end.

(** The [sql] property of the response to a request, from the provider's
    reply to that request alone. *)
Definition sql_field_for (reply : option axios_result) : value :=
  match reply with
  | Some r =>
      match generated r with
      | Some (c :: t) => JStr (c :: t)
      | _ => JUndefined
      end
  | None => JUndefined
  end.

(** A world that replays recorded replies: its state is what is left of
    the record. *)
Definition no_reply : js_error :=
  {| err_response := JUndefined; err_message := JUndefined |}.

Fixpoint replay_axios (w : list event) (url : jsstring) (data config : value)
  : list event * axios_result :=
  match w with
  | [] => ([], AxRejected no_reply)
  | EvAxios _ _ _ r :: w' => (w', r)
  | _ :: w' => replay_axios w' url data config
  end.

Fixpoint replay_db (w : list event) (sql : jsstring)
  : list event * db_result :=
  match w with
  | [] => ([], DbRejected no_reply)
  | EvDb _ r :: w' => (w', r)
  | _ :: w' => replay_db w' sql
  end.

Definition is_console_event (e : event) : bool :=
  match e with
  | EvConsole _ _ _ => true
  | _ => false
  end.

Definition replies (evs : list event) : list event :=
  filter (fun e => negb (is_console_event e)) evs.

(** An executable scheduler: the requests take their steps in the order
    [sched] names them, against a shared world. *)
Section Schedule.

Context {World : Type}.
Variable axios_post :
  World -> jsstring -> value -> value -> World * axios_result.
Variable db_query : World -> jsstring -> World * db_result.

Definition advance {A : Type} (p : prog A) (w : World)
  : option (World * event * prog A) :=
  match p with
  | Ret _ | Throw _ => None
  | AxiosPost url data config k =>
      let (w1, r) := axios_post w url data config in
      Some (w1, EvAxios url data config r, k r)
  | DbQuery sql k =>
      let (w1, r) := db_query w sql in
      Some (w1, EvDb sql r, k r)
  | Console lvl label arg k => Some (w, EvConsole lvl label arg, k)
  end.

Fixpoint run_schedule {A : Type} (sched : list request_id) (w : World)
         (c : prog A * prog A)
  : World * list (request_id * event) * (prog A * prog A) :=
  match sched with
  | [] => (w, [], c)
  | i :: rest =>
      match advance (thread i c) w with
      | None => run_schedule rest w c
      | Some (w1, e, p1) =>
          let c1 := match i with
                    | First => (p1, snd c)
                    | Second => (fst c, p1)
                    end in
          let '(w2, tr, c2) := run_schedule rest w1 c1 in
          (w2, (i, e) :: tr, c2)
      end
  end.

End Schedule.

(** ** Further closed forms *)




(** [a] is [b] with some characters deleted. *)
Inductive subseq : jsstring -> jsstring -> Prop :=
| subseq_nil : subseq [] []
| subseq_drop c a b : subseq a b -> subseq a (c :: b)
| subseq_keep c a b : subseq a b -> subseq (c :: a) (c :: b).

Definition no_backtick (s : jsstring) : bool :=
  forallb (fun c => negb (c =? backtick)%N) s.

Definition is_string (v : value) : bool :=
  match v with
  | JStr _ => true
  | _ => false
  end.

Definition is_axios_event (e : event) : bool :=
  match e with
  | EvAxios _ _ _ _ => true
  | _ => false
  end.

Definition count_events (f : event -> bool) (tr : list event) : nat :=
  List.length (filter f tr).

(** The settlement of the first database call among some events. *)
Fixpoint db_reply (evs : list event) : option db_result :=
  match evs with
  | [] => None
  | EvDb _ r :: _ => Some r
  | _ :: rest => db_reply rest
  end.

(** The response to a request, from the replies to that request's own
    calls: no provider call means the request was refused at once. *)
Definition expected_response (llm : option axios_result)
           (db : option db_result) : response :=
  match llm with
  | None => missing_query
  | Some r0 =>
      match generated r0, db with
      | Some (c :: t), Some r => executed (c :: t) r
      | _, _ => generation_failed
      end
  end.

(** ** Sample worlds *)

Module Sample.

(** A host whose renderings are placeholders. *)
Definition host : Host := {|
  number_to_string := fun _ => lit "0";
  JSON_stringify := fun v =>
    match v with
    | JUndefined => JUndefined
    | _ => JStr (lit "{ ... }")
    end;
  GEMINI_API_KEY := JStr (lit "test-key")
|}.

(** A provider response with one candidate holding [text]. *)
Definition completion (text : value) : value :=
  obj [("candidates",
        JArr [obj [("content", obj [("parts", JArr [obj [("text", text)]])])]])].

(** A stateless world: the provider always answers [reply], the database
    always answers [answer]. *)
Definition provider (reply : axios_result)
  (w : unit) (url : jsstring) (data config : value) : unit * axios_result :=
  (w, reply).

Definition database (answer : db_result) (w : unit) (sql : jsstring)
  : unit * db_result :=
  (w, answer).

Definition rows1 : value := JArr [obj [("n", JNum 1)]].

Definition all_rows : db_result := DbFulfilled rows1 JNull.

(** A completion in fences, with white space around it and inside. *)
Definition fenced_inner : jsstring :=
  newline :: lit "SELECT COUNT(*) FROM job_card;" ++ [newline].

Definition fenced_completion : value :=
  completion
    (JStr (lit " " ++ fence_sql ++ fenced_inner ++ fence ++ [newline])).

(** A completion in fences whose SQL holds a triple backtick. *)
Definition tick_inner : jsstring := lit "SELECT '```';".

Definition tick_completion : value :=
  completion (JStr (fence_sql ++ tick_inner ++ fence)).

Definition refused : js_error :=
  {| err_response := JUndefined;
     err_message := JStr (lit "You have an error in your SQL syntax") |}.

Definition unreachable : js_error :=
  {| err_response := JUndefined; err_message := JStr (lit "Network Error") |}.

Definition ask (q : string) : value := obj [("nlQuery", JStr (lit q))].

(** A world that counts the provider calls: the first is answered with a
    fenced query, every later one with a bare query; the database fulfils
    every query. *)
Definition counting_provider (w : nat) (url : jsstring) (data config : value)
  : nat * axios_result :=
  (S w,
   AxFulfilled
     (completion
        (JStr (match w with
               | O => fence_sql ++ lit " SELECT 1; " ++ fence
               | S _ => lit "SELECT 2;"
               end)))).

Definition counting_database (w : nat) (sql : jsstring) : nat * db_result :=
  (w, all_rows).

(** Two requests whose steps alternate. *)
Definition joint
  : nat * list (request_id * event) * (prog response * prog response) :=
  run_schedule counting_provider counting_database
    [First; Second; Second; First; First; Second] 0
    (post_query (host := host) (ask "count the jobs"),
     post_query (host := host) (ask "list the brands")).

(** A completion whose fence carries another language tag. *)
Definition mysql_inner : jsstring :=
  lit "mysql" ++ newline :: lit "SELECT name FROM brand;" ++ [newline].

(** A request whose [nlQuery] is an object that hides [toString]. *)
Definition hiding_query : value :=
  obj [("nlQuery", obj [("toString", JNum 1)])].

End Sample.

(** * Properties *)

(** ** Strings: trimming, matching, deleting matches *)

Section StringFacts.

Lemma all_ws_app (a b : jsstring) :
  all_ws (a ++ b) = all_ws a && all_ws b.
Proof. apply forallb_app. Qed.

Lemma all_ws_rev (a : jsstring) : all_ws (rev a) = all_ws a.
Proof.
  induction a as [|c a IH]; [reflexivity|].
  simpl. rewrite all_ws_app, IH. simpl.
  rewrite andb_true_r. apply andb_comm.
Qed.

Lemma trimStart_app_ws (ws s : jsstring) :
  all_ws ws = true -> trimStart (ws ++ s) = trimStart s.
Proof.
  induction ws as [|c ws IH]; simpl; [reflexivity|].
  intros H. apply andb_prop in H. destruct H as [Hc Hws].
  rewrite Hc. auto.
Qed.

Lemma trimStart_all_ws (ws : jsstring) :
  all_ws ws = true -> trimStart ws = [].
Proof.
  intros H. rewrite <- (app_nil_r ws). now rewrite trimStart_app_ws.
Qed.

Lemma trimStart_cons_keep (c : code_unit) (s : jsstring) :
  is_ws c = false -> trimStart (c :: s) = c :: s.
Proof. intros H. simpl. now rewrite H. Qed.

Lemma trimStart_snoc_keep (a : jsstring) (c : code_unit) :
  is_ws c = false -> trimStart (a ++ [c]) = trimStart a ++ [c].
Proof.
  intros Hc. induction a as [|x a IH]; simpl.
  - now rewrite Hc.
  - destruct (is_ws x); [exact IH | reflexivity].
Qed.

Lemma trimStart_suffix (s : jsstring) :
  exists ws, s = ws ++ trimStart s.
Proof.
  induction s as [|c s [ws IH]]; simpl.
  - now exists [].
  - destruct (is_ws c).
    + exists (c :: ws). simpl. now f_equal.
    + now exists [].
Qed.

Lemma trimStart_idem (s : jsstring) : trimStart (trimStart s) = trimStart s.
Proof.
  induction s as [|c s IH]; simpl; [reflexivity|].
  destruct (is_ws c) eqn:Hc; [exact IH|].
  now apply trimStart_cons_keep.
Qed.

Lemma trimEnd_app_ws (s ws : jsstring) :
  all_ws ws = true -> trimEnd (s ++ ws) = trimEnd s.
Proof.
  intros H. unfold trimEnd. rewrite rev_app_distr.
  rewrite trimStart_app_ws; [reflexivity | now rewrite all_ws_rev].
Qed.

Lemma trimEnd_snoc_keep (s : jsstring) (c : code_unit) :
  is_ws c = false -> trimEnd (s ++ [c]) = s ++ [c].
Proof.
  intros H. unfold trimEnd. rewrite rev_app_distr. simpl.
  rewrite H. simpl. now rewrite rev_involutive.
Qed.

Lemma trimEnd_cons_keep (c : code_unit) (s : jsstring) :
  is_ws c = false -> trimEnd (c :: s) = c :: trimEnd s.
Proof.
  intros H. unfold trimEnd. simpl.
  rewrite trimStart_snoc_keep by exact H.
  rewrite rev_app_distr. reflexivity.
Qed.

Lemma trimEnd_prefix (s : jsstring) :
  exists ws, s = trimEnd s ++ ws.
Proof.
  destruct (trimStart_suffix (rev s)) as [ws H].
  exists (rev ws). unfold trimEnd.
  rewrite <- rev_app_distr, <- H. now rewrite rev_involutive.
Qed.

Lemma trimEnd_idem (s : jsstring) : trimEnd (trimEnd s) = trimEnd s.
Proof.
  unfold trimEnd. now rewrite rev_involutive, trimStart_idem.
Qed.

Lemma trim_idem (s : jsstring) : trim (trim s) = trim s.
Proof.
  unfold trim. destruct (trimStart s) as [|c t] eqn:E.
  - reflexivity.
  - assert (Hc : is_ws c = false).
    { destruct s as [|x s]; [discriminate|].
      revert E. induction (x :: s) as [|y l IH]; simpl; [discriminate|].
      destruct (is_ws y) eqn:Hy; [exact IH|].
      intros E. now inversion E; subst. }
    rewrite (trimEnd_cons_keep c t Hc).
    rewrite trimStart_cons_keep by exact Hc.
    rewrite <- (trimEnd_cons_keep c t Hc). apply trimEnd_idem.
Qed.

(** Text between two runs of white space that itself starts and ends with
    a visible character is what [trim] returns. *)
Lemma trim_between_ws (ws1 ws2 s : jsstring) (c d : code_unit) :
  all_ws ws1 = true -> all_ws ws2 = true ->
  is_ws c = false -> is_ws d = false ->
  trim (ws1 ++ (c :: s ++ [d]) ++ ws2) = c :: s ++ [d].
Proof.
  intros H1 H2 Hc Hd. unfold trim.
  rewrite trimStart_app_ws by exact H1.
  simpl. rewrite Hc.
  change (c :: (s ++ [d]) ++ ws2) with ((c :: s ++ [d]) ++ ws2).
  rewrite trimEnd_app_ws by exact H2.
  change (c :: s ++ [d]) with ((c :: s) ++ [d]).
  now apply trimEnd_snoc_keep.
Qed.

Variable eqc : code_unit -> code_unit -> bool.

Lemma match_here_app (pat a b : jsstring) :
  match_here eqc pat a = true -> match_here eqc pat (a ++ b) = true.
Proof.
  revert a. induction pat as [|p pat IH]; intros a; [reflexivity|].
  destruct a as [|c a]; simpl; [discriminate|].
  intros H. apply andb_prop in H. destruct H as [H1 H2].
  now rewrite H1, IH.
Qed.

Lemma occurs_cons (pat : jsstring) (c : code_unit) (s : jsstring) :
  occurs eqc pat (c :: s) = match_here eqc pat (c :: s) || occurs eqc pat s.
Proof. reflexivity. Qed.

Lemma occurs_suffix (pat a b : jsstring) :
  occurs eqc pat (a ++ b) = false -> occurs eqc pat b = false.
Proof.
  induction a as [|c a IH]; [trivial|].
  simpl app. rewrite occurs_cons. intros H.
  apply orb_false_elim in H. now apply IH.
Qed.

Lemma occurs_prefix (pat a b : jsstring) :
  occurs eqc pat (a ++ b) = false -> occurs eqc pat a = false.
Proof.
  induction a as [|c a IH].
  - destruct pat as [|p pat]; [|reflexivity].
    destruct b; discriminate.
  - simpl app. rewrite !occurs_cons. intros H.
    apply orb_false_elim in H. destruct H as [H1 H2].
    rewrite (IH H2), orb_false_r.
    destruct (match_here eqc pat (c :: a)) eqn:E; [|reflexivity].
    apply (match_here_app pat (c :: a) b) in E. simpl app in E. congruence.
Qed.

Lemma occurs_trim (pat s : jsstring) :
  occurs eqc pat s = false -> occurs eqc pat (trim s) = false.
Proof.
  intros H. unfold trim.
  destruct (trimStart_suffix s) as [ws1 E1].
  destruct (trimEnd_prefix (trimStart s)) as [ws2 E2].
  rewrite E1 in H. apply occurs_suffix in H.
  rewrite E2 in H. now apply occurs_prefix in H.
Qed.

Lemma delete_matches_skip (pat : jsstring) (skip : nat) (s : jsstring) :
  delete_matches eqc pat skip s = delete_matches eqc pat 0 (skipn skip s).
Proof.
  revert skip. induction s as [|c s IH]; intros [|k]; try reflexivity.
  cbn [delete_matches skipn]. apply IH.
Qed.

(** The scan, as the recursion it stands for: drop the match and go on
    after it, or keep one character. *)
Lemma replace_all_unfold (p : code_unit) (pat : jsstring)
      (c : code_unit) (s : jsstring) :
  replace_all eqc (p :: pat) (c :: s) =
  if match_here eqc (p :: pat) (c :: s)
  then replace_all eqc (p :: pat) (skipn (List.length (p :: pat)) (c :: s))
  else c :: replace_all eqc (p :: pat) s.
Proof.
  unfold replace_all. cbn [delete_matches].
  destruct (match_here eqc (p :: pat) (c :: s)); [|reflexivity].
  rewrite delete_matches_skip.
  replace (List.length (p :: pat) - 1) with (List.length pat)
    by (cbn [List.length]; lia).
  reflexivity.
Qed.

(** Where the pattern occurs nowhere, the global replace changes nothing. *)
Lemma replace_all_absent (pat s : jsstring) :
  occurs eqc pat s = false -> replace_all eqc pat s = s.
Proof.
  unfold replace_all. induction s as [|c s IH]; [reflexivity|].
  rewrite occurs_cons. intros H.
  apply orb_false_elim in H. destruct H as [H1 H2].
  cbn [delete_matches]. rewrite H1. now rewrite IH.
Qed.

End StringFacts.

(** ** The fences *)

Lemma exact_backtick (c : code_unit) :
  exact backtick c = (c =? backtick)%N.
Proof. apply N.eqb_sym. Qed.

Lemma match_fence_ticks (s : jsstring) :
  match_here exact fence s = true <-> 3 <= leading_ticks s.
Proof.
  unfold fence.
  destruct s as [|a [|b [|c s]]]; cbn [match_here leading_ticks];
    rewrite ?exact_backtick;
    repeat match goal with
           | |- context [(?x =? backtick)%N] => destruct (x =? backtick)%N
           end; cbn [andb]; split; (discriminate || lia || reflexivity).
Qed.

Lemma ignore_case_backtick (c : code_unit) :
  ignore_case backtick c = exact backtick c.
Proof.
  assert (Hb : canonicalize backtick = backtick) by reflexivity.
  unfold ignore_case, exact. rewrite Hb. unfold canonicalize.
  destruct ((97 <=? c) && (c <=? 122))%N eqn:E; [|reflexivity].
  apply andb_prop in E. destruct E as [E1 E2].
  apply N.leb_le in E1. apply N.leb_le in E2.
  assert (H1 : backtick <> (c - 32)%N) by (unfold backtick; lia).
  assert (H2 : backtick <> c) by (unfold backtick; lia).
  apply N.eqb_neq in H1. apply N.eqb_neq in H2. congruence.
Qed.

(** A match of the tagged fence starts with a match of the bare one. *)
Lemma match_fence_sql_fence (s : jsstring) :
  match_here ignore_case fence_sql s = true ->
  match_here exact fence s = true.
Proof.
  change fence_sql with (backtick :: backtick :: backtick :: lit "sql").
  unfold fence.
  destruct s as [|a [|b [|c s]]]; cbn [match_here]; intros H;
    rewrite ?andb_false_r in H; try discriminate.
  rewrite !ignore_case_backtick in H.
  apply andb_prop in H. destruct H as [Ha H].
  apply andb_prop in H. destruct H as [Hb H].
  apply andb_prop in H. destruct H as [Hc _].
  now rewrite Ha, Hb, Hc.
Qed.


Lemma leading_ticks_skip3 (s : jsstring) :
  3 <= leading_ticks s ->
  leading_ticks (skipn 3 s) + 3 = leading_ticks s.
Proof.
  destruct s as [|a [|b [|c s]]]; cbn [leading_ticks skipn];
    repeat match goal with
           | |- context [(?x =? backtick)%N] => destruct (x =? backtick)%N
           end; lia.
Qed.

(** Deleting the bare fences leaves fewer than three backticks in front,
    and never more than there were. *)
Lemma delete_fence_ticks (s : jsstring) (skip : nat) :
  leading_ticks (delete_matches exact fence skip s) < 3 /\
  leading_ticks (delete_matches exact fence skip s)
    <= leading_ticks (skipn skip s).
Proof.
  revert skip. induction s as [|c s IH]; intros skip.
  - destruct skip; simpl; lia.
  - destruct skip as [|k].
    + cbn [delete_matches skipn].
      destruct (match_here exact fence (c :: s)) eqn:E.
      * apply match_fence_ticks in E.
        pose proof (leading_ticks_skip3 (c :: s) E) as Hs.
        cbn [skipn] in Hs. change (List.length fence - 1) with 2.
        specialize (IH 2). lia.
      * assert (Hlt : leading_ticks (c :: s) < 3).
        { destruct (le_lt_dec 3 (leading_ticks (c :: s))) as [Hge|]; [|lia].
          apply match_fence_ticks in Hge. congruence. }
        specialize (IH 0). cbn [skipn] in IH.
        cbn [leading_ticks] in *.
        destruct (c =? backtick)%N; lia.
    + cbn [delete_matches skipn]. apply IH.
Qed.

(** After the second replace no bare fence is left anywhere. *)
Lemma delete_fence_none (s : jsstring) (skip : nat) :
  occurs exact fence (delete_matches exact fence skip s) = false.
Proof.
  revert skip. induction s as [|c s IH]; intros skip.
  - destruct skip; reflexivity.
  - destruct skip as [|k]; cbn [delete_matches]; [|apply IH].
    destruct (match_here exact fence (c :: s)) eqn:E; [apply IH|].
    rewrite occurs_cons, IH, orb_false_r.
    destruct (match_here exact fence (c :: delete_matches exact fence 0 s))
      eqn:M; [|reflexivity].
    apply match_fence_ticks in M.
    pose proof (delete_fence_ticks (c :: s) 0) as [Hlt _].
    cbn [delete_matches] in Hlt. rewrite E in Hlt. lia.
Qed.

(** The closing fence is deleted from the end of text that holds no
    fence, also when that text ends in backticks. *)
Lemma delete_closing_fence (inner : jsstring) :
  occurs exact fence inner = false ->
  replace_all exact fence (inner ++ fence) = inner.
Proof.
  unfold replace_all. induction inner as [|c r IH]; [reflexivity|].
  rewrite occurs_cons. intros H.
  apply orb_false_elim in H. destruct H as [Hhead Hrest].
  cbn [app delete_matches].
  destruct (match_here exact fence (c :: r ++ fence)) eqn:M.
  - unfold fence in M, Hhead.
    destruct r as [|c2 [|c3 r3]]; cbn [app match_here] in M, Hhead.
    + rewrite !exact_backtick in M.
      destruct (N.eqb_spec c backtick); [subst c; reflexivity|discriminate].
    + rewrite !exact_backtick in M.
      destruct (N.eqb_spec c backtick); [subst c|discriminate].
      destruct (N.eqb_spec c2 backtick); [subst c2; reflexivity|discriminate].
    + rewrite Hhead in M. discriminate.
  - now rewrite IH.
Qed.

(** Text that holds no fence, followed by the closing fence, holds no
    tagged fence: a match would need three more characters. *)
Lemma no_fence_sql_before_closing (inner : jsstring) :
  occurs exact fence inner = false ->
  occurs ignore_case fence_sql (inner ++ fence) = false.
Proof.
  induction inner as [|c r IH]; [reflexivity|].
  rewrite occurs_cons. intros H.
  apply orb_false_elim in H. destruct H as [Hhead Hrest].
  cbn [app]. rewrite occurs_cons, (IH Hrest), orb_false_r.
  destruct (match_here ignore_case fence_sql (c :: r ++ fence)) eqn:M;
    [|reflexivity].
  destruct r as [|c2 [|c3 r3]].
  - change fence_sql with (backtick :: backtick :: backtick :: lit "sql") in M.
    unfold fence in M. cbn in M. now rewrite !andb_false_r in M.
  - change fence_sql with (backtick :: backtick :: backtick :: lit "sql") in M.
    unfold fence in M. cbn in M. now rewrite !andb_false_r in M.
  - apply match_fence_sql_fence in M.
    unfold fence in M, Hhead. cbn [app match_here] in M, Hhead.
    rewrite Hhead in M. discriminate.
Qed.

(** The pure core of the fence round trip. *)
Lemma cleanSQL_fenced (inner : jsstring) :
  occurs exact fence inner = false ->
  cleanSQL (fence_sql ++ inner ++ fence) = trim inner.
Proof.
  intros H. unfold cleanSQL. f_equal.
  assert (E : replace_all ignore_case fence_sql (fence_sql ++ inner ++ fence)
              = inner ++ fence).
  { transitivity (replace_all ignore_case fence_sql (inner ++ fence)).
    - reflexivity.
    - apply replace_all_absent. now apply no_fence_sql_before_closing. }
  rewrite E. now apply delete_closing_fence.
Qed.

Lemma cleanSQL_no_fence (text : jsstring) :
  occurs exact fence (cleanSQL text) = false.
Proof.
  unfold cleanSQL. apply occurs_trim. apply delete_fence_none.
Qed.


(** ** Runs of [generateSQL] and of the route *)

Section RunFacts.

Context {host : Host}.
Context {World : Type}.
Variable axios_post :
  World -> jsstring -> value -> value -> World * axios_result.
Variable db_query : World -> jsstring -> World * db_result.

Local Notation "'exec'" := (run axios_post db_query).

Lemma run_bind {A B : Type} (p : prog A) (f : A -> prog B) (w : World) :
  exec (bind p f) w =
  match exec p w with
  | (w1, tr1, Returned a) =>
      let '(w2, tr2, o) := exec (f a) w1 in (w2, tr1 ++ tr2, o)
  | (w1, tr1, Rejected e) => (w1, tr1, Rejected e)
  end.
Proof.
  revert w.
  induction p as [a|e|url data config k IH|sql k IH|lvl label arg k IH];
    intros w; cbn [bind run].
  - now destruct (exec (f a) w) as [[w2 tr2] o].
  - reflexivity.
  - destruct (axios_post w url data config) as [w1 r]. rewrite IH.
    destruct (exec (k r) w1) as [[w2 tr1] [a|e]]; [|reflexivity].
    now destruct (exec (f a) w2) as [[w3 tr2] o].
  - destruct (db_query w sql) as [w1 r]. rewrite IH.
    destruct (exec (k r) w1) as [[w2 tr1] [a|e]]; [|reflexivity].
    now destruct (exec (f a) w2) as [[w3 tr2] o].
  - rewrite IH.
    destruct (exec k w) as [[w2 tr1] [a|e]]; [|reflexivity].
    now destruct (exec (f a) w2) as [[w3 tr2] o].
Qed.

Lemma run_generateSQL (nlQuery : value) (w : World) :
  exec (generateSQL nlQuery) w =
  match to_string nlQuery with
  | None =>
      (w, [], Rejected (TypeError "Cannot convert object to primitive value"))
  | Some q =>
      let (w1, r) :=
        axios_post w GEMINI_URL
          (gemini_request (build_prompt q))
          gemini_config in
      (w1,
       [EvAxios GEMINI_URL
          (gemini_request (build_prompt q))
          gemini_config r;
        generation_log r],
       Returned (generated r))
  end.
Proof.
  unfold generateSQL, prompt_of.
  destruct (to_string nlQuery) as [q|]; [|reflexivity].
  cbn [bind try_catch await_axios_post run].
  destruct (axios_post _ _ _ _) as [w1 [data|err]]; [|reflexivity].
  cbn [bind try_catch]. unfold generation_log, generated, trimmed_or_empty.
  destruct (first_candidate_text data) as [| | | |s| |]; try reflexivity.
  cbn [bind try_catch]. destruct (trim s); reflexivity.
Qed.

Lemma run_post_query (req_body : value) (w : World) :
  exec (post_query req_body) w =
  if is_nullish req_body then
    (w, [],
     Rejected (TypeError "Cannot destructure property 'nlQuery' of 'req.body'"))
  else if to_boolean (opt_field req_body (lit "nlQuery")) then
    match exec (generateSQL (opt_field req_body (lit "nlQuery"))) w with
    | (w1, tr1, Rejected e) => (w1, tr1, Rejected e)
    | (w1, tr1, Returned None) | (w1, tr1, Returned (Some [])) =>
        (w1, tr1, Returned generation_failed)
    | (w1, tr1, Returned (Some (c :: t))) =>
        let (w2, r) := db_query w1 (c :: t) in
        (w2, tr1 ++ EvDb (c :: t) r :: execution_log r,
         Returned (executed (c :: t) r))
    end
  else (w, [], Returned missing_query).
Proof.
  unfold post_query, destructure_nlQuery.
  destruct (is_nullish req_body); [reflexivity|].
  cbn [bind]. destruct (to_boolean _); [|reflexivity].
  cbn [negb]. rewrite run_bind.
  destruct (exec (generateSQL _) w) as [[w1 tr1] [[[|c t]|]|e]];
    try (cbn; now rewrite app_nil_r).
  - cbn [sql_falsy try_catch bind await_db_query run].
    destruct (db_query w1 (c :: t)) as [w2 [rows fields|err]]; reflexivity.
  - reflexivity.
Qed.



Lemma generation_log_console (r : axios_result) :
  exists lvl label arg, generation_log r = EvConsole lvl label arg.
Proof.
  unfold generation_log. destruct r as [data|err]; [|eauto].
  destruct (first_candidate_text data); eauto.
  destruct (trim s); eauto.
Qed.

Lemma execution_log_console (r : db_result) (e : event) :
  In e (execution_log r) -> is_console_event e = true.
Proof.
  destruct r; cbn; [tauto|]. intros [<-|[]]. reflexivity.
Qed.

(** A run of [generateSQL] either fails before any call, or makes the one
    provider call, logs once and returns. *)
Lemma generateSQL_shape (nlQuery : value) (w w1 : World)
      (tr : list event) (o : outcome (option jsstring)) :
  exec (generateSQL nlQuery) w = (w1, tr, o) ->
  (tr = [] /\ exists e, o = Rejected e) \/
  (exists q r,
      to_string nlQuery = Some q /\
      tr = [EvAxios GEMINI_URL (gemini_request (build_prompt q))
              gemini_config r;
            generation_log r] /\
      o = Returned (generated r)).
Proof.
  rewrite run_generateSQL. destruct (to_string nlQuery) as [q|].
  - destruct (axios_post _ _ _ _) as [w2 r].
    intros [= <- <- <-]. right. exists q, r. repeat split.
  - intros [= <- <- <-]. left. eauto.
Qed.

(** The four ways a run of the route ends, with the trace of each. *)
Lemma post_query_shape (req_body : value) (w w' : World)
      (tr : list event) (o : outcome response) :
  exec (post_query req_body) w = (w', tr, o) ->
  (tr = [] /\ (o = Returned missing_query \/ exists e, o = Rejected e)) \/
  (exists q r0,
      to_string (opt_field req_body (lit "nlQuery")) = Some q /\
      tr = [EvAxios GEMINI_URL (gemini_request (build_prompt q))
              gemini_config r0;
            generation_log r0] /\
      sql_falsy (generated r0) = true /\
      o = Returned generation_failed) \/
  (exists q r0 sql r,
      to_string (opt_field req_body (lit "nlQuery")) = Some q /\
      generated r0 = Some sql /\ sql <> [] /\
      tr = EvAxios GEMINI_URL (gemini_request (build_prompt q))
             gemini_config r0
             :: generation_log r0 :: EvDb sql r :: execution_log r /\
      o = Returned (executed sql r)).
Proof.
  rewrite run_post_query.
  destruct (is_nullish req_body).
  { intros [= <- <- <-]. left. eauto. }
  destruct (to_boolean _).
  2:{ intros [= <- <- <-]. left. eauto. }
  destruct (exec (generateSQL _) w) as [[w1 tr1] o1] eqn:G.
  apply generateSQL_shape in G.
  destruct G as [[-> [e ->]]|[q [r0 [Hq [-> ->]]]]].
  { intros [= <- <- <-]. left. eauto. }
  destruct (generated r0) as [[|c t]|] eqn:E.
  - intros [= <- <- <-]. right. left.
    exists q, r0. rewrite E. repeat split. exact Hq.
  - destruct (db_query w1 (c :: t)) as [w2 r].
    intros [= <- <- <-]. right. right.
    exists q, r0, (c :: t), r. repeat split; try assumption. discriminate.
  - intros [= <- <- <-]. right. left.
    exists q, r0. rewrite E. repeat split. exact Hq.
Qed.


(** C2. When the request carries a truthy [nlQuery] and [generateSQL]
    returns [null], the route answers 500 with the body
    [{"error":"AI failed to generate SQL"}] and its trace is that of
    [generateSQL], which holds no database call.  In every run of the
    route, a database call comes after a provider call that was
    fulfilled. *)
Theorem generation_failure_reported (req_body : value) (w w1 : World)
        (tr1 : list event) :
  to_boolean (opt_field req_body (lit "nlQuery")) = true ->
  exec (generateSQL (opt_field req_body (lit "nlQuery"))) w
    = (w1, tr1, Returned None) ->
  exec (post_query req_body) w =
    (w1, tr1,
     Returned {| status := 500;
                 body :=
                   obj [("error", JStr (lit "AI failed to generate SQL"))] |})
  /\ existsb is_db_event tr1 = false
  /\ (forall body' w0 w' tr o pre sql r post,
         exec (post_query body') w0 = (w', tr, o) ->
         tr = pre ++ EvDb sql r :: post ->
         existsb is_axios_success pre = true).
Proof.
  intros Hnl Hgen. split; [|split].
  - rewrite run_post_query, Hnl, Hgen.
    destruct (is_nullish req_body) eqn:N; [|reflexivity].
    destruct req_body; discriminate.
  - apply generateSQL_shape in Hgen.
    destruct Hgen as [[-> _]|[q [r [_ [-> _]]]]]; [reflexivity|].
    destruct (generation_log_console r) as [lvl [label [arg ->]]].
    reflexivity.
  - intros body' w0 w' tr o pre sql r post Hrun Hsplit.
    apply post_query_shape in Hrun.
    destruct Hrun as [[-> _]|[[q [r0 [_ [-> _]]]]
                             |[q [r0 [sql' [r' [_ [G [_ [-> _]]]]]]]]]].
    + destruct pre; discriminate.
    + destruct (generation_log_console r0) as [lvl [label [arg E]]].
      rewrite E in Hsplit.
      destruct pre as [|e0 [|e1 [|e2 pre]]]; try discriminate.
    + destruct pre as [|e0 pre]; [discriminate|].
      injection Hsplit as <- _.
      destruct r0 as [data|err]; [reflexivity|discriminate].
Qed.

(** C4. When generation returns a non-empty SQL string and the database
    fulfils the query, the route answers 200 with a body whose [sql]
    property is that very string and whose [result] property is the rows
    the database returned. *)
Theorem success_response (req_body : value) (w w1 w2 : World)
        (tr1 : list event) (sql : jsstring) (rows fields : value) :
  to_boolean (opt_field req_body (lit "nlQuery")) = true ->
  exec (generateSQL (opt_field req_body (lit "nlQuery"))) w
    = (w1, tr1, Returned (Some sql)) ->
  sql <> [] ->
  db_query w1 sql = (w2, DbFulfilled rows fields) ->
  exec (post_query req_body) w =
    (w2, tr1 ++ [EvDb sql (DbFulfilled rows fields)],
     Returned {| status := 200;
                 body := obj [("sql", JStr sql); ("result", rows)] |}).
Proof.
  intros Hnl Hgen Hsql Hdb. rewrite run_post_query, Hnl, Hgen.
  destruct (is_nullish req_body) eqn:N; [destruct req_body; discriminate|].
  destruct sql as [|c t]; [contradiction|].
  now rewrite Hdb.
Qed.

(** C5. When generation returns a non-empty SQL string and the database
    rejects the query, the route answers 500 with [error] set to
    ["SQL Execution Failed"], [details] set to the driver's error message
    as it is, and [sql] set to the string that was attempted. *)
Theorem execution_failure_response (req_body : value) (w w1 w2 : World)
        (tr1 : list event) (sql : jsstring) (err : js_error) :
  to_boolean (opt_field req_body (lit "nlQuery")) = true ->
  exec (generateSQL (opt_field req_body (lit "nlQuery"))) w
    = (w1, tr1, Returned (Some sql)) ->
  sql <> [] ->
  db_query w1 sql = (w2, DbRejected err) ->
  exec (post_query req_body) w =
    (w2,
     tr1 ++ [EvDb sql (DbRejected err);
             EvConsole LvlError (lit "SQL Execution Error:")
               (err_message err)],
     Returned {| status := 500;
                 body := obj [("error", JStr (lit "SQL Execution Failed"));
                              ("details", err_message err);
                              ("sql", JStr sql)] |}).
Proof.
  intros Hnl Hgen Hsql Hdb. rewrite run_post_query, Hnl, Hgen.
  destruct (is_nullish req_body) eqn:N; [destruct req_body; discriminate|].
  destruct sql as [|c t]; [contradiction|].
  now rewrite Hdb.
Qed.

(** C6. When the provider's response has no text in its first candidate,
    or a text that is empty once trimmed, [generateSQL] returns [null];
    it returns [null] as well when the call to the provider is
    rejected. *)
Theorem generateSQL_null_without_text (nlQuery : value) (w w1 : World)
        (tr : list event) (o : outcome (option jsstring)) :
  exec (generateSQL nlQuery) w = (w1, tr, o) ->
  (forall url d c data,
      In (EvAxios url d c (AxFulfilled data)) tr ->
      text_absent_or_empty data = true ->
      o = Returned None) /\
  (forall url d c err,
      In (EvAxios url d c (AxRejected err)) tr ->
      o = Returned None).
Proof.
  intros Hrun. apply generateSQL_shape in Hrun.
  destruct Hrun as [[-> _]|[q [r [_ [-> ->]]]]].
  { split; intros; contradiction. }
  destruct (generation_log_console r) as [lvl [label [arg E]]]. rewrite E.
  split.
  - intros url d c data [H|[H|[]]] Hempty; [|discriminate].
    injection H as _ _ _ ->. unfold generated.
    unfold text_absent_or_empty in Hempty.
    destruct (first_candidate_text data); try reflexivity.
    destruct (trim s); [reflexivity|discriminate].
  - intros url d c err [H|[H|[]]]; [|discriminate].
    injection H as _ _ _ ->. reflexivity.
Qed.

(** C7. In every run of the route the SQL string handed to the database
    is non-empty; and when [generateSQL] returns [null] or the empty
    string, the route answers with the generation failure and stops. *)
Theorem executor_gets_nonempty_sql (req_body : value) (w w' : World)
        (tr : list event) (o : outcome response) :
  exec (post_query req_body) w = (w', tr, o) ->
  (forall sql r, In (EvDb sql r) tr -> sql <> []) /\
  (forall w1 tr1 g,
      to_boolean (opt_field req_body (lit "nlQuery")) = true ->
      exec (generateSQL (opt_field req_body (lit "nlQuery"))) w
        = (w1, tr1, Returned g) ->
      g = None \/ g = Some [] ->
      w' = w1 /\ tr = tr1 /\
      o = Returned
            {| status := 500;
               body :=
                 obj [("error", JStr (lit "AI failed to generate SQL"))] |}).
Proof.
  intros Hrun. split.
  - intros sql r Hin. apply post_query_shape in Hrun.
    destruct Hrun as [[-> _]|[[q [r0 [_ [-> _]]]]
                             |[q [r0 [sql' [r' [_ [_ [Hne [-> _]]]]]]]]]].
    + contradiction.
    + destruct (generation_log_console r0) as [lvl [label [arg E]]].
      rewrite E in Hin. destruct Hin as [H|[H|[]]]; discriminate.
    + destruct (generation_log_console r0) as [lvl [label [arg E]]].
      rewrite E in Hin.
      destruct Hin as [H|[H|[H|H]]]; try discriminate.
      * injection H as <- _. exact Hne.
      * apply execution_log_console in H. discriminate.
  - intros w1 tr1 g Hnl Hgen Hg.
    rewrite run_post_query, Hnl, Hgen in Hrun.
    destruct (is_nullish req_body) eqn:N; [destruct req_body; discriminate|].
    destruct Hg as [->| ->]; injection Hrun as <- <- <-; repeat split.
Qed.


(** C9. The missing-query test is JavaScript falsiness: a request whose
    [nlQuery] is a non-empty string of white space is not answered 400, the
    provider is called with that string in the prompt; a request whose
    [nlQuery] is falsy is answered 400 before any call, and the empty
    string, [0], [false] and [null] are falsy. *)
Theorem falsiness_not_emptiness (req_body : value) (w : World) :
  is_nullish req_body = false ->
  (forall s,
      opt_field req_body (lit "nlQuery") = JStr s ->
      s <> [] -> all_ws s = true ->
      exists w1 r rest resp,
        exec (post_query req_body) w =
          (w1,
           EvAxios GEMINI_URL (gemini_request (build_prompt s))
             gemini_config r :: rest,
           Returned resp) /\
        status resp <> 400) /\
  (to_boolean (opt_field req_body (lit "nlQuery")) = false ->
   exec (post_query req_body) w =
     (w, [],
      Returned {| status := 400;
                  body :=
                    obj [("error", JStr (lit "Missing natural query"))] |})) /\
  to_boolean (JStr []) = false /\
  to_boolean (JNum 0%float) = false /\
  to_boolean (JBool false) = false /\
  to_boolean JNull = false.
Proof.
  intros Hbody. split; [|split].
  - intros s Hs Hne _. rewrite run_post_query, Hbody, Hs.
    destruct s as [|c0 s0]; [contradiction|]. cbn [to_boolean].
    rewrite run_generateSQL. cbn [to_string].
    destruct (axios_post _ _ _ _) as [w1 r].
    destruct (generated r) as [[|c t]|].
    + do 4 eexists. split; [reflexivity|]. discriminate.
    + destruct (db_query w1 (c :: t)) as [w2 [rows fields|err]];
        (do 4 eexists; split; [reflexivity|]; discriminate).
    + do 4 eexists. split; [reflexivity|]. discriminate.
  - intros Hnl. now rewrite run_post_query, Hbody, Hnl.
  - repeat split.
Qed.

(** C1. When the provider's text is white space, the opening fence, an
    inner text that holds no triple backtick, the closing fence and white
    space, [generateSQL] returns the inner text trimmed, and that is the
    string a run of the route hands to the database. *)
Theorem fenced_completion_unwrapped (data : value)
        (ws1 inner ws2 : jsstring) :
  first_candidate_text data
    = JStr (ws1 ++ fence_sql ++ inner ++ fence ++ ws2) ->
  all_ws ws1 = true -> all_ws ws2 = true ->
  occurs exact fence inner = false ->
  (forall nlQuery w w1 tr o url d c,
      exec (generateSQL nlQuery) w = (w1, tr, o) ->
      In (EvAxios url d c (AxFulfilled data)) tr ->
      o = Returned (Some (trim inner))) /\
  (forall req_body w w1 tr o url d c,
      exec (post_query req_body) w = (w1, tr, o) ->
      In (EvAxios url d c (AxFulfilled data)) tr ->
      forall sql r, In (EvDb sql r) tr -> sql = trim inner).
Proof.
  intros Htext H1 H2 Hinner.
  assert (G : generated (AxFulfilled data) = Some (trim inner)).
  { unfold generated. rewrite Htext.
    assert (T : trim (ws1 ++ fence_sql ++ inner ++ fence ++ ws2)
                = fence_sql ++ inner ++ fence).
    { change fence_sql with (backtick :: [backtick; backtick] ++ lit "sql").
      change fence with ([backtick; backtick] ++ [backtick]).
      replace (ws1 ++ (backtick :: [backtick; backtick] ++ lit "sql")
                 ++ inner ++ ([backtick; backtick] ++ [backtick]) ++ ws2)
        with (ws1 ++ (backtick ::
                        (([backtick; backtick] ++ lit "sql") ++ inner
                           ++ [backtick; backtick]) ++ [backtick]) ++ ws2)
        by (cbn [app]; now rewrite <- !app_assoc).
      rewrite trim_between_ws by (assumption || reflexivity).
      cbn [app]. now rewrite <- !app_assoc. }
    rewrite T. rewrite <- (cleanSQL_fenced inner Hinner).
    reflexivity. }
  split.
  - intros nlQuery w w1 tr o url d c Hrun Hin.
    apply generateSQL_shape in Hrun.
    destruct Hrun as [[-> _]|[q [r [_ [-> ->]]]]]; [contradiction|].
    destruct (generation_log_console r) as [lvl [label [arg E]]].
    rewrite E in Hin. destruct Hin as [H|[H|[]]]; [|discriminate].
    injection H as _ _ _ ->. now rewrite G.
  - intros req_body w w1 tr o url d c Hrun Hin sql r Hdb.
    apply post_query_shape in Hrun.
    destruct Hrun as [[-> _]|[[q [r0 [_ [-> _]]]]
                             |[q [r0 [sql' [r' [_ [G' [_ [-> _]]]]]]]]]].
    + contradiction.
    + destruct (generation_log_console r0) as [lvl [label [arg E]]].
      rewrite E in Hdb. destruct Hdb as [H|[H|[]]]; discriminate.
    + destruct (generation_log_console r0) as [lvl [label [arg E]]].
      rewrite E in Hin, Hdb.
      destruct Hin as [H|[H|[H|H]]]; try discriminate.
      2:{ apply execution_log_console in H. discriminate. }
      injection H as _ _ _ ->.
      destruct Hdb as [H|[H|[H|H]]]; try discriminate.
      2:{ apply execution_log_console in H. discriminate. }
      injection H as <- _. congruence.
Qed.

End RunFacts.

(** ** Fences anywhere in the text *)






Section GlobalSubstitution.

Context {host : Host}.
Context {World : Type}.
Variable axios_post :
  World -> jsstring -> value -> value -> World * axios_result.
Variable db_query : World -> jsstring -> World * db_result.


End GlobalSubstitution.

(** ** Two requests in flight *)

Section RunIsExecution.

Context {World : Type}.
Variable axios_post :
  World -> jsstring -> value -> value -> World * axios_result.
Variable db_query : World -> jsstring -> World * db_result.

(** Every run against a world is an execution of the step relation. *)
Lemma run_steps {A : Type} (p : prog A) (w w' : World)
      (tr : list event) (a : A) :
  run axios_post db_query p w = (w', tr, Returned a) -> steps p tr (Ret a).
Proof.
  revert w tr.
  induction p as [b|e|url data config k IH|sql k IH|lvl label arg k IH];
    intros w tr; cbn [run].
  - intros [= <- <- <-]. constructor.
  - discriminate.
  - destruct (axios_post w url data config) as [w1 r].
    destruct (run _ _ (k r) w1) as [[w2 tr1] o] eqn:E.
    intros [= <- <- ->]. econstructor; [constructor|]. eapply IH, E.
  - destruct (db_query w sql) as [w1 r].
    destruct (run _ _ (k r) w1) as [[w2 tr1] o] eqn:E.
    intros [= <- <- ->]. econstructor; [constructor|]. eapply IH, E.
  - destruct (run _ _ k w) as [[w2 tr1] o] eqn:E.
    intros [= <- <- ->]. econstructor; [constructor|]. eapply IH, E.
Qed.

Lemma advance_step {A : Type} (p p1 : prog A) (w w1 : World) (e : event) :
  advance axios_post db_query p w = Some (w1, e, p1) -> step p e p1.
Proof.
  destruct p as [b|err|url data config k|sql k|lvl label arg k];
    cbn [advance]; try discriminate.
  - destruct (axios_post w url data config) as [w2 r].
    intros [= <- <- <-]. constructor.
  - destruct (db_query w sql) as [w2 r].
    intros [= <- <- <-]. constructor.
  - intros [= <- <- <-]. constructor.
Qed.

(** What the scheduler computes is an interleaving. *)
Lemma run_schedule_interleave {A : Type} (sched : list request_id)
      (w w' : World) (c c' : prog A * prog A)
      (tr : list (request_id * event)) :
  run_schedule axios_post db_query sched w c = (w', tr, c') ->
  interleave c tr c'.
Proof.
  revert w c tr. induction sched as [|i rest IH]; intros w c tr;
    cbn [run_schedule].
  - intros [= <- <- <-]. constructor.
  - destruct (advance _ _ (thread i c) w) as [[[w1 e] p1]|] eqn:E;
      [|apply IH].
    apply advance_step in E.
    destruct (run_schedule _ _ rest w1 _) as [[w2 tr1] c2] eqn:R.
    intros [= <- <- <-]. apply IH in R.
    destruct c as [p q]. destruct i; cbn [thread fst snd] in *.
    + now apply interleave_first with (p1 := p1).
    + now apply interleave_second with (q1 := p1).
Qed.

End RunIsExecution.

(** Each request's part of a joint execution is an execution of that
    request on its own. *)
Lemma interleave_own {A : Type} (c c' : prog A * prog A)
      (tr : list (request_id * event)) (i : request_id) :
  interleave c tr c' -> steps (thread i c) (own i tr) (thread i c').
Proof.
  induction 1 as [c|p q e p1 tr c' Hstep _ IH|p q e q1 tr c' Hstep _ IH].
  - constructor.
  - destruct i; cbn [own filter fst request_id_eqb map snd thread] in *.
    + econstructor; eassumption.
    + exact IH.
  - destruct i; cbn [own filter fst request_id_eqb map snd thread] in *.
    + exact IH.
    + econstructor; eassumption.
Qed.

(** A finished execution is the run against the world that replays its
    replies. *)
Lemma steps_replay {A : Type} (p p' : prog A) (evs : list event) :
  steps p evs p' ->
  forall a, p' = Ret a ->
  run replay_axios replay_db p (replies evs) = ([], evs, Returned a).
Proof.
  induction 1 as [p|p e p1 tr p2 Hstep _ IH]; intros a Ha.
  - subst p. reflexivity.
  - specialize (IH a Ha).
    destruct Hstep; cbn [replies filter is_console_event negb run
                         replay_axios replay_db];
      fold (replies tr); now rewrite IH.
Qed.

Section TwoRequests.

Context {host : Host}.

(** C8. Two requests in flight together, their steps taken in any order
    and the provider and the database answering as they please: the [sql]
    property of a request's response is computed from the provider's reply
    to that request's own call, and that call carries the prompt built
    from that request's own [nlQuery]. *)
Theorem responses_do_not_mix (body1 body2 : value)
        (tr : list (request_id * event))
        (c : prog response * prog response)
        (i : request_id) (resp : response) :
  interleave (post_query body1, post_query body2) tr c ->
  thread i c = Ret resp ->
  opt_field (body resp) (lit "sql") = sql_field_for (llm_reply (own i tr)) /\
  (forall url d cfg r,
      In (EvAxios url d cfg r) (own i tr) ->
      exists q,
        to_string (opt_field (match i with
                              | First => body1
                              | Second => body2
                              end) (lit "nlQuery")) = Some q /\
        d = gemini_request (build_prompt q)).
Proof.
  intros Hil Hdone.
  apply (interleave_own _ _ _ i) in Hil.
  apply (steps_replay _ _ _ Hil resp) in Hdone.
  replace (thread i (post_query body1, post_query body2))
    with (post_query (match i with First => body1 | Second => body2 end))
    in Hdone by now destruct i.
  apply post_query_shape in Hdone.
  destruct Hdone as [[-> [[= ->]|[e [=]]]]
                    |[[q [r0 [Hq [-> [F [= ->]]]]]]
                     |[q [r0 [sql [r [Hq [G [Hne [-> [= ->]]]]]]]]]]].
  - split; [reflexivity|]. intros url d cfg r [].
  - destruct (generation_log_console r0) as [lvl [label [arg E]]].
    rewrite E. split.
    + cbn [llm_reply sql_field_for].
      destruct (generated r0) as [[|c0 t]|]; try discriminate; reflexivity.
    + intros url d cfg r [H|[H|[]]]; [|discriminate].
      injection H as _ <- _ _. now exists q.
  - destruct (generation_log_console r0) as [lvl [label [arg E]]].
    rewrite E. split.
    + cbn [llm_reply sql_field_for]. rewrite G.
      destruct sql as [|c0 t]; [contradiction|].
      destruct r; reflexivity.
    + intros url d cfg r1 [H|[H|[H|H]]]; try discriminate.
      * injection H as _ <- _ _. now exists q.
      * apply execution_log_console in H. discriminate.
Qed.

End TwoRequests.

(** * Further properties of the code *)

(** ** The clean-up only deletes *)

Lemma subseq_refl (s : jsstring) : subseq s s.
Proof. induction s; [apply subseq_nil|now apply subseq_keep]. Qed.

Lemma subseq_trans (a b c : jsstring) :
  subseq a b -> subseq b c -> subseq a c.
Proof.
  intros H1 H2. revert a H1.
  induction H2 as [|x b c _ IH|x b c _ IH]; intros a H1.
  - exact H1.
  - apply subseq_drop. now apply IH.
  - inversion H1; subst.
    + apply subseq_drop. now apply IH.
    + apply subseq_keep. now apply IH.
Qed.

Lemma subseq_suffix (a b : jsstring) : subseq b (a ++ b).
Proof.
  induction a as [|c a IH]; [apply subseq_refl|].
  cbn [app]. now apply subseq_drop.
Qed.

Lemma subseq_prefix (a b : jsstring) : subseq a (a ++ b).
Proof.
  induction a as [|c a IH].
  - induction b; [apply subseq_nil|now apply subseq_drop].
  - cbn [app]. now apply subseq_keep.
Qed.

Lemma subseq_trim (s : jsstring) : subseq (trim s) s.
Proof.
  unfold trim.
  destruct (trimStart_suffix s) as [ws1 E1].
  destruct (trimEnd_prefix (trimStart s)) as [ws2 E2].
  apply subseq_trans with (b := trimStart s).
  - rewrite E2 at 2. apply subseq_prefix.
  - rewrite E1 at 2. apply subseq_suffix.
Qed.

Lemma subseq_delete_matches (eqc : code_unit -> code_unit -> bool)
      (pat : jsstring) (skip : nat) (s : jsstring) :
  subseq (delete_matches eqc pat skip s) s.
Proof.
  revert skip. induction s as [|c s IH]; intros skip.
  - destruct skip; apply subseq_nil.
  - destruct skip as [|k]; cbn [delete_matches].
    + destruct (match_here eqc pat (c :: s));
        [apply subseq_drop|apply subseq_keep]; apply IH.
    + apply subseq_drop. apply IH.
Qed.

Lemma subseq_cleanSQL (text : jsstring) : subseq (cleanSQL text) text.
Proof.
  unfold cleanSQL, replace_all.
  eapply subseq_trans; [apply subseq_trim|].
  eapply subseq_trans; apply subseq_delete_matches.
Qed.

Lemma is_ws_not_backtick (c : code_unit) :
  is_ws c = true -> (c =? backtick)%N = false.
Proof.
  intros H. destruct (N.eqb_spec c backtick) as [->|]; [|reflexivity].
  discriminate H.
Qed.

Lemma no_backtick_no_fence (s : jsstring) :
  no_backtick s = true -> occurs exact fence s = false.
Proof.
  induction s as [|c s IH]; [reflexivity|].
  cbn [no_backtick forallb]. intros H.
  apply andb_prop in H. destruct H as [Hc Hs].
  rewrite occurs_cons, (IH Hs), orb_false_r.
  unfold fence. cbn [match_here]. rewrite exact_backtick.
  apply negb_true_iff in Hc. now rewrite Hc.
Qed.

Lemma all_ws_no_backtick (s : jsstring) :
  all_ws s = true -> no_backtick s = true.
Proof.
  induction s as [|c s IH]; [reflexivity|].
  cbn [all_ws no_backtick forallb]. intros H.
  apply andb_prop in H. destruct H as [Hc Hs].
  rewrite (is_ws_not_backtick c Hc). now apply IH.
Qed.

Lemma trim_all_ws (s : jsstring) : all_ws s = true -> trim s = [].
Proof. intros H. unfold trim. now rewrite trimStart_all_ws. Qed.

(** X6. The opening fence is recognised in any letter case: a text made of
    three backticks, a tag that reads [sql] in upper or lower case letters,
    an inner text without a triple backtick and the closing fence is
    cleaned to the inner text trimmed. *)
Theorem opening_fence_any_case (tag inner : jsstring) :
  List.length tag = 3 ->
  match_here ignore_case (lit "sql") tag = true ->
  occurs exact fence inner = false ->
  cleanSQL (fence ++ tag ++ inner ++ fence) = trim inner.
Proof.
  intros Hlen Htag Hinner.
  destruct tag as [|a [|b [|c [|d tag]]]]; try discriminate Hlen.
  change (lit "sql") with [115%N; 113%N; 108%N] in Htag.
  cbn [match_here] in Htag.
  apply andb_prop in Htag. destruct Htag as [Ha Htag].
  apply andb_prop in Htag. destruct Htag as [Hb Htag].
  apply andb_prop in Htag. destruct Htag as [Hc _].
  unfold cleanSQL. f_equal.
  assert (E : replace_all ignore_case fence_sql
                (fence ++ [a; b; c] ++ inner ++ fence) = inner ++ fence).
  { transitivity (replace_all ignore_case fence_sql (inner ++ fence)).
    - unfold replace_all, fence.
      change fence_sql
        with [backtick; backtick; backtick; 115%N; 113%N; 108%N].
      cbn [app delete_matches match_here List.length Nat.sub].
      rewrite !ignore_case_backtick, !exact_backtick, !N.eqb_refl, Ha, Hb, Hc.
      reflexivity.
    - apply replace_all_absent. now apply no_fence_sql_before_closing. }
  rewrite E. now apply delete_closing_fence.
Qed.

Lemma no_backtick_no_fence_sql_before_closing (inner : jsstring) :
  no_backtick inner = true ->
  occurs ignore_case fence_sql (inner ++ fence) = false.
Proof.
  intros H. apply no_fence_sql_before_closing. now apply no_backtick_no_fence.
Qed.

(** X7. Only the [sql] tag is known: when the opening fence is followed by
    a text without backticks that does not begin with [sql] in any letter
    case, the fences are deleted and that text stays whole, its tag word
    included. *)
Theorem other_language_tag_kept (inner : jsstring) :
  no_backtick inner = true ->
  match_here ignore_case (lit "sql") inner = false ->
  cleanSQL (fence ++ inner ++ fence) = trim inner.
Proof.
  intros Hticks Htag.
  pose proof (no_backtick_no_fence inner Hticks) as Hinner.
  unfold cleanSQL. f_equal.
  assert (E : replace_all ignore_case fence_sql (fence ++ inner ++ fence)
              = fence ++ inner ++ fence).
  { apply replace_all_absent.
    pose proof (no_backtick_no_fence_sql_before_closing inner Hticks) as Hrest.
    assert (Hat : forall pre, match_here ignore_case fence_sql
                                (pre ++ inner ++ fence) = true ->
                              pre = fence -> False).
    { intros pre M ->. revert M.
      change fence_sql with (fence ++ lit "sql"). unfold fence.
      cbn [app match_here].
      rewrite !ignore_case_backtick, !exact_backtick, !N.eqb_refl.
      cbn [andb]. intros M.
      assert (M' : match_here ignore_case (lit "sql") inner = true).
      { revert M. change (lit "sql") with [115%N; 113%N; 108%N].
        destruct inner as [|a [|b [|c r]]]; intros M.
        - cbn in M. discriminate M.
        - cbn in M. rewrite ?andb_false_r in M. discriminate M.
        - cbn in M. rewrite ?andb_false_r in M. discriminate M.
        - cbn [app match_here] in M |- *. exact M. }
      congruence. }
    unfold fence at 1. cbn [app].
    rewrite !occurs_cons, Hrest, !orb_false_r.
    destruct (match_here ignore_case fence_sql
                (backtick :: backtick :: backtick :: inner ++ fence)) eqn:M0.
    { exfalso. now apply (Hat fence M0). }
    destruct (match_here ignore_case fence_sql
                (backtick :: backtick :: inner ++ fence)) eqn:M1.
    { exfalso. revert M1.
      change fence_sql with (backtick :: backtick :: backtick :: lit "sql").
      change (lit "sql") with [115%N; 113%N; 108%N].
      destruct inner as [|c r].
      - cbn. discriminate.
      - cbn [app match_here]. rewrite !ignore_case_backtick.
        cbn [no_backtick forallb] in Hticks.
        apply andb_prop in Hticks. destruct Hticks as [Hc _].
        apply negb_true_iff in Hc.
        rewrite (exact_backtick c), Hc, !andb_false_r. discriminate. }
    destruct (match_here ignore_case fence_sql
                (backtick :: inner ++ fence)) eqn:M2; [|reflexivity].
    exfalso. revert M2.
    change fence_sql with (backtick :: backtick :: backtick :: lit "sql").
    change (lit "sql") with [115%N; 113%N; 108%N].
    destruct inner as [|c r].
    - cbn. discriminate.
    - cbn [app match_here]. rewrite !ignore_case_backtick.
      cbn [no_backtick forallb] in Hticks.
      apply andb_prop in Hticks. destruct Hticks as [Hc _].
      apply negb_true_iff in Hc.
      rewrite (exact_backtick c), Hc, !andb_false_r. discriminate. }
  rewrite E.
  transitivity (replace_all exact fence (inner ++ fence)).
  - reflexivity.
  - now apply delete_closing_fence.
Qed.

(** ** Further properties of [generateSQL] and of the route *)

Section Coverage.

Context {host : Host}.
Context {World : Type}.
Variable axios_post :
  World -> jsstring -> value -> value -> World * axios_result.
Variable db_query : World -> jsstring -> World * db_result.

Local Notation "'exec'" := (run axios_post db_query).

Lemma generated_clean (r : axios_result) (s : jsstring) :
  generated r = Some s ->
  occurs exact fence s = false /\ trim s = s /\
  exists data text,
    r = AxFulfilled data /\ first_candidate_text data = JStr text /\
    s = cleanSQL (trim text) /\ trim text <> [].
Proof.
  unfold generated. destruct r as [data|err]; [|discriminate].
  destruct (first_candidate_text data) as [| | | |text| |] eqn:T;
    try discriminate.
  destruct (trim text) as [|c t] eqn:E; [discriminate|].
  intros [= <-]. split; [apply cleanSQL_no_fence|]. split.
  - unfold cleanSQL. apply trim_idem.
  - exists data, text. rewrite E. repeat split; [exact T|discriminate].
Qed.

Lemma generation_log_success (r : axios_result) (s : jsstring) :
  generated r = Some s ->
  generation_log r = EvConsole LvlLog generated_label (JStr s).
Proof.
  unfold generated, generation_log. destruct r as [data|err]; [|discriminate].
  destruct (first_candidate_text data); try discriminate.
  destruct (trim s0); [discriminate|]. now intros [= <-].
Qed.

(** X1. Once the prompt is built, [generateSQL] cannot fail and does not
    retry: whatever the provider does, the run makes exactly one call, to
    the fixed endpoint, with the schema text, a line break, [User: ] and
    the question as its prompt and the API key in its parameters, writes
    one console record and returns a string or [null]. *)
Theorem generateSQL_single_call (nlQuery : value) (q : jsstring) (w : World) :
  to_string nlQuery = Some q ->
  exists w1 r lvl label arg result,
    axios_post w GEMINI_URL (gemini_request (build_prompt q)) gemini_config
      = (w1, r) /\
    exec (generateSQL nlQuery) w =
      (w1,
       [EvAxios GEMINI_URL (gemini_request (build_prompt q)) gemini_config r;
        EvConsole lvl label arg],
       Returned result).
Proof.
  intros Hq. rewrite run_generateSQL, Hq.
  destruct (axios_post _ _ _ _) as [w1 r].
  destruct (generation_log_console r) as [lvl [label [arg E]]].
  exists w1, r, lvl, label, arg, (generated r). now rewrite E.
Qed.

(** X2. A string returned by [generateSQL] holds no triple backtick, has no
    white space at either end, and is the value written to the log. *)
Theorem generateSQL_result_clean (nlQuery : value) (w w1 : World)
        (tr : list event) (s : jsstring) :
  exec (generateSQL nlQuery) w = (w1, tr, Returned (Some s)) ->
  occurs exact fence s = false /\
  trim s = s /\
  In (EvConsole LvlLog generated_label (JStr s)) tr.
Proof.
  intros Hrun. apply generateSQL_shape in Hrun.
  destruct Hrun as [[_ [e [=]]]|[q [r [_ [-> [= G]]]]]].
  symmetry in G. destruct (generated_clean r s G) as [H1 [H2 _]].
  rewrite (generation_log_success r s G).
  repeat split; try assumption. right. now left.
Qed.

(** X3. The clean-up only deletes: a string returned by [generateSQL] is
    the provider's text with some characters removed, in the same order. *)
Theorem generateSQL_result_from_text (nlQuery : value) (w w1 : World)
        (tr : list event) (s : jsstring) :
  exec (generateSQL nlQuery) w = (w1, tr, Returned (Some s)) ->
  exists url d c data text,
    In (EvAxios url d c (AxFulfilled data)) tr /\
    first_candidate_text data = JStr text /\
    subseq s text.
Proof.
  intros Hrun. apply generateSQL_shape in Hrun.
  destruct Hrun as [[_ [e [=]]]|[q [r [_ [-> [= G]]]]]].
  symmetry in G.
  destruct (generated_clean r s G) as [_ [_ [data [text [-> [T [-> _]]]]]]].
  do 3 eexists. exists data, text. split; [now left|]. split; [exact T|].
  eapply subseq_trans; [apply subseq_cleanSQL | apply subseq_trim].
Qed.

(** X4. When the first candidate's text is present but is not a string (a
    number, a boolean, an array, an object), [generateSQL] returns [null]
    and the failure is logged as an [AI Error]. *)
Theorem generateSQL_null_on_non_string (nlQuery : value) (w w1 : World)
        (tr : list event) (o : outcome (option jsstring))
        (url : jsstring) (d c data : value) :
  exec (generateSQL nlQuery) w = (w1, tr, o) ->
  In (EvAxios url d c (AxFulfilled data)) tr ->
  is_nullish (first_candidate_text data) = false ->
  is_string (first_candidate_text data) = false ->
  o = Returned None /\
  exists arg, In (EvConsole LvlError (lit "AI Error:") arg) tr.
Proof.
  intros Hrun Hin Hnull Hstr. apply generateSQL_shape in Hrun.
  destruct Hrun as [[-> _]|[q [r [_ [-> ->]]]]]; [contradiction|].
  destruct Hin as [H|[H|[]]].
  - injection H as _ _ _ ->. unfold generated, generation_log.
    destruct (first_candidate_text data); try discriminate;
      (split; [reflexivity|]; eexists; right; left; reflexivity).
  - destruct (generation_log_console r) as [lvl [label [arg E]]].
    rewrite E in H. discriminate.
Qed.

(** X5. A completion made of the two fences and white space only makes
    [generateSQL] return the empty string, not [null]; the route answers
    it like a failed generation and does not call the database. *)
Theorem fences_only_completion (data : value) (ws1 ws2 ws3 : jsstring) :
  first_candidate_text data
    = JStr (ws1 ++ fence_sql ++ ws2 ++ fence ++ ws3) ->
  all_ws ws1 = true -> all_ws ws2 = true -> all_ws ws3 = true ->
  (forall nlQuery w w1 tr o url d c,
      exec (generateSQL nlQuery) w = (w1, tr, o) ->
      In (EvAxios url d c (AxFulfilled data)) tr ->
      o = Returned (Some [])) /\
  (forall req_body w w1 tr o url d c,
      exec (post_query req_body) w = (w1, tr, o) ->
      In (EvAxios url d c (AxFulfilled data)) tr ->
      o = Returned {| status := 500;
                      body :=
                        obj [("error",
                              JStr (lit "AI failed to generate SQL"))] |} /\
      existsb is_db_event tr = false).
Proof.
  intros Htext H1 H2 H3.
  assert (G : generated (AxFulfilled data) = Some []).
  { unfold generated. rewrite Htext.
    assert (T : trim (ws1 ++ fence_sql ++ ws2 ++ fence ++ ws3)
                = fence_sql ++ ws2 ++ fence).
    { change fence_sql with (backtick :: [backtick; backtick] ++ lit "sql").
      change fence with ([backtick; backtick] ++ [backtick]).
      replace (ws1 ++ (backtick :: [backtick; backtick] ++ lit "sql")
                 ++ ws2 ++ ([backtick; backtick] ++ [backtick]) ++ ws3)
        with (ws1 ++ (backtick ::
                        (([backtick; backtick] ++ lit "sql") ++ ws2
                           ++ [backtick; backtick]) ++ [backtick]) ++ ws3)
        by (cbn [app]; now rewrite <- !app_assoc).
      rewrite trim_between_ws by (assumption || reflexivity).
      cbn [app]. now rewrite <- !app_assoc. }
    rewrite T.
    assert (C : cleanSQL (fence_sql ++ ws2 ++ fence) = []).
    { rewrite cleanSQL_fenced
        by now apply no_backtick_no_fence, all_ws_no_backtick.
      now apply trim_all_ws. }
    rewrite <- C. reflexivity. }
  split.
  - intros nlQuery w w1 tr o url d c Hrun Hin.
    apply generateSQL_shape in Hrun.
    destruct Hrun as [[-> _]|[q [r [_ [-> ->]]]]]; [contradiction|].
    destruct (generation_log_console r) as [lvl [label [arg E]]].
    rewrite E in Hin. destruct Hin as [H|[H|[]]]; [|discriminate].
    injection H as _ _ _ ->. now rewrite G.
  - intros req_body w w1 tr o url d c Hrun Hin.
    apply post_query_shape in Hrun.
    destruct Hrun as [[-> _]|[[q [r0 [_ [-> [_ ->]]]]]
                             |[q [r0 [sql [r [_ [G' [Hne [-> _]]]]]]]]]].
    + contradiction.
    + destruct (generation_log_console r0) as [lvl [label [arg E]]].
      rewrite E. split; reflexivity.
    + exfalso.
      destruct (generation_log_console r0) as [lvl [label [arg E]]].
      rewrite E in Hin.
      destruct Hin as [H|[H|[H|H]]]; try discriminate.
      * injection H as _ _ _ ->. rewrite G in G'.
        injection G' as <-. now apply Hne.
      * apply execution_log_console in H. discriminate.
Qed.

(** X8. No retry anywhere: a run of the route makes at most one provider
    call and at most one database call, and a database call only after
    its one provider call. *)
Theorem post_query_call_budget (req_body : value) (w w' : World)
        (tr : list event) (o : outcome response) :
  exec (post_query req_body) w = (w', tr, o) ->
  count_events is_axios_event tr <= 1 /\
  count_events is_db_event tr <= 1 /\
  (count_events is_db_event tr = 1 ->
   exists url d c r rest, tr = EvAxios url d c r :: rest).
Proof.
  intros Hrun. apply post_query_shape in Hrun. unfold count_events.
  destruct Hrun as [[-> _]|[[q [r0 [_ [-> _]]]]
                           |[q [r0 [sql [r [_ [_ [_ [-> _]]]]]]]]]].
  - cbn. repeat split; lia.
  - destruct (generation_log_console r0) as [lvl [label [arg ->]]].
    cbn. repeat split; lia.
  - destruct (generation_log_console r0) as [lvl [label [arg ->]]].
    assert (Hlog : forall f, (forall l b a, f (EvConsole l b a) = false) ->
                             filter f (execution_log r) = []).
    { intros f Hf. destruct r; cbn; [reflexivity|now rewrite Hf]. }
    cbn [filter is_axios_event is_db_event].
    rewrite !Hlog by reflexivity. cbn.
    repeat split; try lia. intros _. now do 5 eexists.
Qed.

(** X9. What is reported is what was executed: when the route answers, the
    [sql] property of the response is the string handed to the database,
    the response has an [sql] property only if the database was called,
    and the status is 200 exactly when the database fulfilled the query. *)
Theorem reported_sql_is_executed_sql (req_body : value) (w w' : World)
        (tr : list event) (resp : response) :
  exec (post_query req_body) w = (w', tr, Returned resp) ->
  (forall sql r,
      In (EvDb sql r) tr -> opt_field (body resp) (lit "sql") = JStr sql) /\
  (opt_field (body resp) (lit "sql") <> JUndefined ->
   exists sql r, In (EvDb sql r) tr) /\
  (status resp = 200 <->
   exists sql rows fields, In (EvDb sql (DbFulfilled rows fields)) tr).
Proof.
  intros Hrun. apply post_query_shape in Hrun.
  destruct Hrun as [[-> [[= ->]|[e [=]]]]
                   |[[q [r0 [_ [-> [_ [= ->]]]]]]
                    |[q [r0 [sql [r [_ [_ [_ [-> [= ->]]]]]]]]]]].
  - split; [intros sql r []|]. split.
    + intros H. now contradiction H.
    + split; [discriminate|]. intros [sql [rows [fields []]]].
  - destruct (generation_log_console r0) as [lvl [label [arg ->]]].
    split; [intros sql r [H|[H|[]]]; discriminate|]. split.
    + intros H. now contradiction H.
    + split; [discriminate|].
      intros [sql [rows [fields [H|[H|[]]]]]]; discriminate.
  - destruct (generation_log_console r0) as [lvl [label [arg ->]]].
    split; [|split].
    + intros sql' r' [H|[H|[H|H]]]; try discriminate.
      * injection H as <- _. destruct r; reflexivity.
      * apply execution_log_console in H. discriminate.
    + intros _. exists sql, r. right. right. now left.
    + split.
      * intros Hst. destruct r as [rows fields|err]; [|discriminate].
        exists sql, rows, fields. right. right. now left.
      * intros [sql' [rows [fields [H|[H|[H|H]]]]]]; try discriminate.
        -- injection H as _ ->. reflexivity.
        -- apply execution_log_console in H. discriminate.
Qed.

(** X10. The route ends without sending a response in two cases only: the
    body cannot be destructured, or a truthy [nlQuery] cannot be converted
    to a string (an object with an own [toString] property, or an array
    holding one); nothing has been called then. *)
Theorem post_query_rejects_iff (req_body : value) (w w' : World)
        (tr : list event) (o : outcome response) :
  exec (post_query req_body) w = (w', tr, o) ->
  ((exists e, o = Rejected e) <->
   is_nullish req_body = true \/
   (to_boolean (opt_field req_body (lit "nlQuery")) = true /\
    to_string (opt_field req_body (lit "nlQuery")) = None)) /\
  ((exists e, o = Rejected e) -> tr = [] /\ w' = w).
Proof.
  rewrite run_post_query.
  destruct (is_nullish req_body) eqn:N.
  { intros [= <- <- <-]. split; [|auto]. split; eauto. }
  destruct (to_boolean _) eqn:B.
  2:{ intros [= <- <- <-]. split.
      - split; [intros [e [=]]|]. intros [[=]|[[=] _]].
      - intros [e [=]]. }
  rewrite run_generateSQL.
  destruct (to_string _) as [q|] eqn:S.
  - destruct (axios_post _ _ _ _) as [w1 r0].
    assert (Hno : forall o1 : outcome response,
               (exists resp, o1 = Returned resp) ->
               ((exists e, o1 = Rejected e) <->
                false = true \/ true = true /\ Some q = None)).
    { intros o1 [resp ->]. split; [intros [e [=]]|].
      intros [[=]|[_ [=]]]. }
    destruct (generated r0) as [[|c t]|].
    + intros [= <- <- <-]. split; [apply Hno; eauto|]. intros [e [=]].
    + destruct (db_query w1 (c :: t)) as [w2 r]. intros [= <- <- <-].
      split; [apply Hno; eauto|]. intros [e [=]].
    + intros [= <- <- <-]. split; [apply Hno; eauto|]. intros [e [=]].
  - intros [= <- <- <-]. split; [|auto]. split; eauto.
Qed.

(** X11. Every response of the route has status 400, 500 or 200; it is 400
    exactly when [nlQuery] is falsy. *)
Theorem post_query_status_codes (req_body : value) (w w' : World)
        (tr : list event) (resp : response) :
  exec (post_query req_body) w = (w', tr, Returned resp) ->
  (status resp = 400 \/ status resp = 500 \/ status resp = 200) /\
  (status resp = 400 <->
   to_boolean (opt_field req_body (lit "nlQuery")) = false).
Proof.
  rewrite run_post_query.
  destruct (is_nullish req_body); [discriminate|].
  destruct (to_boolean _) eqn:B.
  2:{ intros [= <- <- <-]. split; [now left|]. split; reflexivity. }
  destruct (exec (generateSQL _) w) as [[w1 tr1] [[[|c t]|]|e]];
    try discriminate.
  - intros [= <- <- <-]. split; [right; now left|].
    split; discriminate.
  - destruct (db_query w1 (c :: t)) as [w2 [rows fields|err]];
      intros [= <- <- <-].
    + split; [right; now right|]. split; discriminate.
    + split; [right; now left|]. split; discriminate.
  - intros [= <- <- <-]. split; [right; now left|].
    split; discriminate.
Qed.

(** X12. The type of [nlQuery] is not checked: any truthy value that can be
    converted to a string goes into the prompt as that string, and an
    object without an own [toString] property is sent as
    [[object Object]], whatever it holds. *)
Theorem truthy_nlQuery_stringified (req_body : value) (w : World) :
  to_boolean (opt_field req_body (lit "nlQuery")) = true ->
  (forall q,
      to_string (opt_field req_body (lit "nlQuery")) = Some q ->
      exists w1 r rest resp,
        exec (post_query req_body) w =
          (w1,
           EvAxios GEMINI_URL (gemini_request (build_prompt q))
             gemini_config r :: rest,
           Returned resp)) /\
  (forall fields,
      opt_field req_body (lit "nlQuery") = JObj fields ->
      has_own (lit "toString") fields = false ->
      exists w1 r rest resp,
        exec (post_query req_body) w =
          (w1,
           EvAxios GEMINI_URL
             (gemini_request (build_prompt (lit "[object Object]")))
             gemini_config r :: rest,
           Returned resp)).
Proof.
  intros Hnl.
  assert (H : forall q,
             to_string (opt_field req_body (lit "nlQuery")) = Some q ->
             exists w1 r rest resp,
               exec (post_query req_body) w =
                 (w1,
                  EvAxios GEMINI_URL (gemini_request (build_prompt q))
                    gemini_config r :: rest,
                  Returned resp)).
  { intros q Hq. rewrite run_post_query, Hnl.
    destruct (is_nullish req_body) eqn:N;
      [destruct req_body; discriminate|].
    rewrite run_generateSQL, Hq.
    destruct (axios_post _ _ _ _) as [w1 r].
    destruct (generated r) as [[|c t]|].
    - now do 4 eexists.
    - destruct (db_query w1 (c :: t)) as [w2 r2]. now do 4 eexists.
    - now do 4 eexists. }
  split; [exact H|].
  intros fields Hobj Hown. apply H.
  rewrite Hobj. cbn [to_string]. now rewrite Hown.
Qed.

(** X14. What [generateSQL] logs when it gives up: for a response without
    usable text, the raw response of the provider as
    [JSON.stringify(res.data, null, 2)] renders it; for a rejected call,
    the body of the provider's error response when there is a truthy one,
    and the error's message otherwise. *)
Theorem generateSQL_failure_log (nlQuery : value) (w w1 : World)
        (tr : list event) (o : outcome (option jsstring)) :
  exec (generateSQL nlQuery) w = (w1, tr, o) ->
  (forall url d c data,
      In (EvAxios url d c (AxFulfilled data)) tr ->
      text_absent_or_empty data = true ->
      In (EvConsole LvlError (lit "Empty Gemini response:")
            (JSON_stringify data)) tr) /\
  (forall url d c err,
      In (EvAxios url d c (AxRejected err)) tr ->
      In (EvConsole LvlError (lit "AI Error:")
            (if to_boolean (opt_field (err_response err) (lit "data"))
             then opt_field (err_response err) (lit "data")
             else err_message err)) tr).
Proof.
  intros Hrun. apply generateSQL_shape in Hrun.
  destruct Hrun as [[-> _]|[q [r [_ [-> _]]]]].
  { split; intros; contradiction. }
  split.
  - intros url d c data [H|[H|[]]] Hempty.
    + injection H as _ _ _ ->. right. left.
      unfold generation_log. unfold text_absent_or_empty in Hempty.
      destruct (first_candidate_text data); try discriminate;
        try reflexivity.
      destruct (trim s); [reflexivity|discriminate].
    + destruct (generation_log_console r) as [lvl [label [arg E]]].
      rewrite E in H. discriminate.
  - intros url d c err [H|[H|[]]].
    + injection H as _ _ _ ->. right. left. reflexivity.
    + destruct (generation_log_console r) as [lvl [label [arg E]]].
      rewrite E in H. discriminate.
Qed.

End Coverage.

(** X13. Two requests in flight together: the whole response to a request,
    status and body, is computed from the replies to that request's own
    provider call and database call. *)
Theorem joint_response_from_own_replies {host : Host}
        (body1 body2 : value) (tr : list (request_id * event))
        (c : prog response * prog response)
        (i : request_id) (resp : response) :
  interleave (post_query body1, post_query body2) tr c ->
  thread i c = Ret resp ->
  resp = expected_response (llm_reply (own i tr)) (db_reply (own i tr)).
Proof.
  intros Hil Hdone.
  apply (interleave_own _ _ _ i) in Hil.
  apply (steps_replay _ _ _ Hil resp) in Hdone.
  replace (thread i (post_query body1, post_query body2))
    with (post_query (match i with First => body1 | Second => body2 end))
    in Hdone by now destruct i.
  apply post_query_shape in Hdone.
  destruct Hdone as [[-> [[= ->]|[e [=]]]]
                    |[[q [r0 [_ [-> [F [= ->]]]]]]
                     |[q [r0 [sql [r [_ [G [Hne [-> [= ->]]]]]]]]]]].
  - reflexivity.
  - destruct (generation_log_console r0) as [lvl [label [arg ->]]].
    cbn [llm_reply db_reply expected_response].
    destruct (generated r0) as [[|c0 t]|]; try discriminate; reflexivity.
  - destruct (generation_log_console r0) as [lvl [label [arg ->]]].
    cbn [llm_reply db_reply expected_response]. rewrite G.
    destruct sql as [|c0 t]; [contradiction|]. reflexivity.
Qed.

(** ** The properties on sample worlds *)

Module Checks.

Import Sample.

Lemma triple_eta {A B C : Type} (x : A * B * C) :
  x = (fst (fst x), snd (fst x), snd x).
Proof. now destruct x as [[a b] c]. Qed.

(** Without the condition on the inner text the round trip fails: for the
    fenced query [SELECT '```';] the backticks of the string literal are
    deleted with the fences. *)
Lemma fenced_completion_counterexample :
  snd (run (provider (AxFulfilled tick_completion)) (database all_rows)
           (generateSQL (host := host) (JStr (lit "count the jobs"))) tt)
    = Returned (Some (lit "SELECT '';"))
  /\ trim tick_inner = lit "SELECT '```';"
  /\ lit "SELECT '';" <> trim tick_inner.
Proof.
  split; [vm_compute; reflexivity|].
  split; [vm_compute; reflexivity|].
  vm_compute. discriminate.
Qed.

Lemma fenced_completion_unwrapped_witness :
  snd (run (provider (AxFulfilled fenced_completion)) (database all_rows)
           (generateSQL (host := host) (JStr (lit "count the jobs"))) tt)
    = Returned (Some (lit "SELECT COUNT(*) FROM job_card;")).
Proof.
  pose proof
    (fenced_completion_unwrapped (host := host)
       (provider (AxFulfilled fenced_completion)) (database all_rows)
       fenced_completion (lit " ") fenced_inner [newline]
       eq_refl eq_refl eq_refl eq_refl) as [H _].
  set (r := run _ _ _ tt).
  rewrite (H (JStr (lit "count the jobs")) tt (fst (fst r)) (snd (fst r))
             (snd r) GEMINI_URL
             (gemini_request (build_prompt (lit "count the jobs")))
             (gemini_config (host := host))).
  - vm_compute. reflexivity.
  - apply triple_eta.
  - left. reflexivity.
Defined.



Lemma generation_failure_reported_witness :
  snd (run (provider (AxRejected unreachable)) (database all_rows)
           (post_query (host := host) (ask "count the jobs")) tt)
  = Returned {| status := 500;
                body :=
                  obj [("error", JStr (lit "AI failed to generate SQL"))] |}.
Proof.
  set (g := run (provider (AxRejected unreachable)) (database all_rows)
                (generateSQL (host := host) (JStr (lit "count the jobs"))) tt).
  destruct
    (generation_failure_reported (host := host)
       (provider (AxRejected unreachable)) (database all_rows)
       (ask "count the jobs") tt (fst (fst g)) (snd (fst g))
       eq_refl eq_refl) as [H _].
  rewrite H. reflexivity.
Defined.

Lemma success_response_witness :
  snd (run (provider (AxFulfilled fenced_completion)) (database all_rows)
           (post_query (host := host) (ask "count the jobs")) tt)
  = Returned {| status := 200;
                body :=
                  obj [("sql", JStr (lit "SELECT COUNT(*) FROM job_card;"));
                       ("result", rows1)] |}.
Proof.
  set (g := run (provider (AxFulfilled fenced_completion)) (database all_rows)
                (generateSQL (host := host) (JStr (lit "count the jobs"))) tt).
  rewrite
    (success_response (host := host)
       (provider (AxFulfilled fenced_completion)) (database all_rows)
       (ask "count the jobs") tt (fst (fst g)) tt (snd (fst g))
       (lit "SELECT COUNT(*) FROM job_card;") rows1 JNull).
  - reflexivity.
  - reflexivity.
  - vm_compute. reflexivity.
  - discriminate.
  - reflexivity.
Defined.

Lemma execution_failure_response_witness :
  snd (run (provider (AxFulfilled fenced_completion))
           (database (DbRejected refused))
           (post_query (host := host) (ask "count the jobs")) tt)
  = Returned {| status := 500;
                body :=
                  obj [("error", JStr (lit "SQL Execution Failed"));
                       ("details",
                        JStr (lit "You have an error in your SQL syntax"));
                       ("sql", JStr (lit "SELECT COUNT(*) FROM job_card;"))] |}.
Proof.
  set (g := run (provider (AxFulfilled fenced_completion))
                (database (DbRejected refused))
                (generateSQL (host := host) (JStr (lit "count the jobs"))) tt).
  rewrite
    (execution_failure_response (host := host)
       (provider (AxFulfilled fenced_completion))
       (database (DbRejected refused))
       (ask "count the jobs") tt (fst (fst g)) tt (snd (fst g))
       (lit "SELECT COUNT(*) FROM job_card;") refused).
  - reflexivity.
  - reflexivity.
  - vm_compute. reflexivity.
  - discriminate.
  - reflexivity.
Defined.

Lemma generateSQL_null_without_text_witness :
  snd (run (provider (AxFulfilled (completion (JStr (lit "  ")))))
           (database all_rows)
           (generateSQL (host := host) (JStr (lit "count the jobs"))) tt)
    = Returned None
  /\ snd (run (provider (AxRejected unreachable)) (database all_rows)
              (generateSQL (host := host) (JStr (lit "count the jobs"))) tt)
    = Returned None.
Proof.
  split.
  - set (r := run _ _ _ tt).
    apply (proj1
             (generateSQL_null_without_text (host := host)
                (provider (AxFulfilled (completion (JStr (lit "  ")))))
                (database all_rows)
                (JStr (lit "count the jobs")) tt (fst (fst r)) (snd (fst r))
                (snd r) (triple_eta r))
             GEMINI_URL
             (gemini_request (build_prompt (lit "count the jobs")))
             (gemini_config (host := host))
             (completion (JStr (lit "  ")))).
    + left. reflexivity.
    + reflexivity.
  - set (r := run _ _ _ tt).
    apply (proj2
             (generateSQL_null_without_text (host := host)
                (provider (AxRejected unreachable))
                (database all_rows)
                (JStr (lit "count the jobs")) tt (fst (fst r)) (snd (fst r))
                (snd r) (triple_eta r))
             GEMINI_URL
             (gemini_request (build_prompt (lit "count the jobs")))
             (gemini_config (host := host))
             unreachable).
    left. reflexivity.
Defined.

Lemma executor_gets_nonempty_sql_witness :
  In (EvDb (lit "SELECT COUNT(*) FROM job_card;") all_rows)
     (snd (fst (run (provider (AxFulfilled fenced_completion))
                    (database all_rows)
                    (post_query (host := host) (ask "count the jobs")) tt)))
  /\ lit "SELECT COUNT(*) FROM job_card;" <> []
  /\ snd (run (provider (AxFulfilled (completion (JStr fence_sql))))
              (database all_rows)
              (post_query (host := host) (ask "count the jobs")) tt)
     = Returned {| status := 500;
                   body :=
                     obj [("error", JStr (lit "AI failed to generate SQL"))] |}.
Proof.
  assert (Hin : In (EvDb (lit "SELECT COUNT(*) FROM job_card;") all_rows)
                   (snd (fst (run (provider (AxFulfilled fenced_completion))
                                  (database all_rows)
                                  (post_query (host := host)
                                     (ask "count the jobs")) tt))))
    by (vm_compute; right; right; left; reflexivity).
  split; [exact Hin|]. split.
  - set (r := run (provider (AxFulfilled fenced_completion))
                  (database all_rows)
                  (post_query (host := host) (ask "count the jobs")) tt) in *.
    exact (proj1
             (executor_gets_nonempty_sql (host := host)
                (provider (AxFulfilled fenced_completion))
                (database all_rows) (ask "count the jobs") tt
                (fst (fst r)) (snd (fst r)) (snd r) (triple_eta r))
             (lit "SELECT COUNT(*) FROM job_card;") all_rows Hin).
  - set (r := run _ _ (post_query _) tt).
    set (g := run (provider (AxFulfilled (completion (JStr fence_sql))))
                  (database all_rows)
                  (generateSQL (host := host) (JStr (lit "count the jobs")))
                  tt).
    apply (proj2
             (executor_gets_nonempty_sql (host := host)
                (provider (AxFulfilled (completion (JStr fence_sql))))
                (database all_rows) (ask "count the jobs") tt
                (fst (fst r)) (snd (fst r)) (snd r) (triple_eta r))
             (fst (fst g)) (snd (fst g)) (Some []) eq_refl).
    + vm_compute. reflexivity.
    + now right.
Defined.

Lemma falsiness_not_emptiness_witness :
  (exists w1 r rest resp,
      run (provider (AxRejected unreachable)) (database all_rows)
          (post_query (host := host) (ask " ")) tt
      = (w1,
         EvAxios GEMINI_URL (gemini_request (build_prompt (lit " ")))
           (gemini_config (host := host)) r :: rest,
         Returned resp)
      /\ status resp <> 400)
  /\ run (provider (AxRejected unreachable)) (database all_rows)
         (post_query (host := host) (obj [("nlQuery", JNum 0%float)])) tt
     = (tt, [],
        Returned {| status := 400;
                    body :=
                      obj [("error", JStr (lit "Missing natural query"))] |}).
Proof.
  split.
  - apply (proj1
             (falsiness_not_emptiness (host := host)
                (provider (AxRejected unreachable)) (database all_rows)
                (ask " ") tt eq_refl)
             (lit " ") eq_refl).
    + discriminate.
    + reflexivity.
  - apply (proj1
             (proj2
                (falsiness_not_emptiness (host := host)
                   (provider (AxRejected unreachable)) (database all_rows)
                   (obj [("nlQuery", JNum 0%float)]) tt eq_refl))).
    reflexivity.
Defined.

Lemma responses_do_not_mix_witness :
  snd joint = (Ret (executed (lit "SELECT 1;") all_rows),
               Ret (executed (lit "SELECT 2;") all_rows))
  /\ opt_field (body (executed (lit "SELECT 1;") all_rows)) (lit "sql")
     = sql_field_for (llm_reply (own First (snd (fst joint))))
  /\ opt_field (body (executed (lit "SELECT 2;") all_rows)) (lit "sql")
     = sql_field_for (llm_reply (own Second (snd (fst joint)))).
Proof.
  assert (H : snd joint = (Ret (executed (lit "SELECT 1;") all_rows),
                           Ret (executed (lit "SELECT 2;") all_rows)))
    by (vm_compute; reflexivity).
  assert (I : interleave
                (post_query (host := host) (ask "count the jobs"),
                 post_query (host := host) (ask "list the brands"))
                (snd (fst joint)) (snd joint)).
  { apply (run_schedule_interleave counting_provider counting_database
             [First; Second; Second; First; First; Second] 0 (fst (fst joint))).
    apply triple_eta. }
  split; [exact H|]. split.
  - apply (responses_do_not_mix (host := host) _ _ _ _ First _ I).
    now rewrite H.
  - apply (responses_do_not_mix (host := host) _ _ _ _ Second _ I).
    now rewrite H.
Defined.


End Checks.

(** ** The further properties on sample worlds *)

Module CoverageChecks.

Import Sample.

Lemma generateSQL_single_call_witness :
  exists w1 r lvl label arg result,
    provider (AxRejected unreachable) tt GEMINI_URL
      (gemini_request (build_prompt (lit "count the jobs")))
      (gemini_config (host := host)) = (w1, r) /\
    run (provider (AxRejected unreachable)) (database all_rows)
        (generateSQL (host := host) (JStr (lit "count the jobs"))) tt =
      (w1,
       [EvAxios GEMINI_URL
          (gemini_request (build_prompt (lit "count the jobs")))
          (gemini_config (host := host)) r;
        EvConsole lvl label arg],
       Returned result).
Proof.
  exact (generateSQL_single_call (host := host)
           (provider (AxRejected unreachable)) (database all_rows)
           (JStr (lit "count the jobs")) (lit "count the jobs") tt eq_refl).
Defined.

Lemma generateSQL_result_clean_witness :
  occurs exact fence (lit "SELECT COUNT(*) FROM job_card;") = false /\
  trim (lit "SELECT COUNT(*) FROM job_card;")
    = lit "SELECT COUNT(*) FROM job_card;" /\
  In (EvConsole LvlLog generated_label
        (JStr (lit "SELECT COUNT(*) FROM job_card;")))
     (snd (fst (run (provider (AxFulfilled fenced_completion))
                    (database all_rows)
                    (generateSQL (host := host)
                       (JStr (lit "count the jobs"))) tt))).
Proof.
  set (r := run _ _ _ tt).
  apply (generateSQL_result_clean (host := host)
           (provider (AxFulfilled fenced_completion)) (database all_rows)
           (JStr (lit "count the jobs")) tt (fst (fst r)) (snd (fst r))).
  vm_compute. reflexivity.
Defined.

Lemma generateSQL_result_from_text_witness :
  exists url d c data text,
    In (EvAxios url d c (AxFulfilled data))
       (snd (fst (run (provider (AxFulfilled fenced_completion))
                      (database all_rows)
                      (generateSQL (host := host)
                         (JStr (lit "count the jobs"))) tt))) /\
    first_candidate_text data = JStr text /\
    subseq (lit "SELECT COUNT(*) FROM job_card;") text.
Proof.
  set (r := run _ _ _ tt).
  apply (generateSQL_result_from_text (host := host)
           (provider (AxFulfilled fenced_completion)) (database all_rows)
           (JStr (lit "count the jobs")) tt (fst (fst r))).
  vm_compute. reflexivity.
Defined.

Lemma generateSQL_null_on_non_string_witness :
  snd (run (provider (AxFulfilled (completion (JNum 1)))) (database all_rows)
           (generateSQL (host := host) (JStr (lit "count the jobs"))) tt)
    = Returned None /\
  exists arg,
    In (EvConsole LvlError (lit "AI Error:") arg)
       (snd (fst (run (provider (AxFulfilled (completion (JNum 1))))
                      (database all_rows)
                      (generateSQL (host := host)
                         (JStr (lit "count the jobs"))) tt))).
Proof.
  set (r := run _ _ _ tt).
  apply (generateSQL_null_on_non_string (host := host)
           (provider (AxFulfilled (completion (JNum 1)))) (database all_rows)
           (JStr (lit "count the jobs")) tt (fst (fst r)) (snd (fst r))
           (snd r) GEMINI_URL
           (gemini_request (build_prompt (lit "count the jobs")))
           (gemini_config (host := host)) (completion (JNum 1))).
  - apply Checks.triple_eta.
  - left. reflexivity.
  - reflexivity.
  - reflexivity.
Defined.

Lemma fences_only_completion_witness :
  snd (run (provider
              (AxFulfilled
                 (completion (JStr (fence_sql ++ [newline] ++ fence)))))
           (database all_rows)
           (generateSQL (host := host) (JStr (lit "count the jobs"))) tt)
    = Returned (Some []).
Proof.
  set (data := completion (JStr (fence_sql ++ [newline] ++ fence))).
  set (r := run _ _ _ tt).
  apply (proj1
           (fences_only_completion (host := host)
              (provider (AxFulfilled data)) (database all_rows)
              data [] [newline] [] eq_refl eq_refl eq_refl eq_refl)
           (JStr (lit "count the jobs")) tt (fst (fst r)) (snd (fst r))
           (snd r) GEMINI_URL
           (gemini_request (build_prompt (lit "count the jobs")))
           (gemini_config (host := host))).
  - apply Checks.triple_eta.
  - left. reflexivity.
Defined.

Lemma opening_fence_any_case_witness :
  cleanSQL (fence ++ lit "SQL" ++ lit " SELECT 1; " ++ fence)
    = lit "SELECT 1;".
Proof.
  rewrite (opening_fence_any_case (lit "SQL") (lit " SELECT 1; ")
             eq_refl eq_refl eq_refl).
  vm_compute. reflexivity.
Defined.

Lemma other_language_tag_kept_witness :
  cleanSQL (fence ++ mysql_inner ++ fence)
    = lit "mysql" ++ newline :: lit "SELECT name FROM brand;".
Proof.
  rewrite (other_language_tag_kept mysql_inner eq_refl eq_refl).
  vm_compute. reflexivity.
Defined.

Lemma post_query_call_budget_witness :
  count_events is_axios_event
    (snd (fst (run (provider (AxFulfilled fenced_completion))
                   (database (DbRejected refused))
                   (post_query (host := host) (ask "count the jobs")) tt)))
    <= 1 /\
  count_events is_db_event
    (snd (fst (run (provider (AxFulfilled fenced_completion))
                   (database (DbRejected refused))
                   (post_query (host := host) (ask "count the jobs")) tt)))
    <= 1.
Proof.
  set (r := run _ _ _ tt).
  destruct (post_query_call_budget (host := host)
              (provider (AxFulfilled fenced_completion))
              (database (DbRejected refused))
              (ask "count the jobs") tt (fst (fst r)) (snd (fst r)) (snd r)
              (Checks.triple_eta r)) as [H1 [H2 _]].
  split; assumption.
Defined.

Lemma reported_sql_is_executed_sql_witness :
  opt_field (body (executed (lit "SELECT COUNT(*) FROM job_card;")
                     (DbRejected refused))) (lit "sql")
    = JStr (lit "SELECT COUNT(*) FROM job_card;").
Proof.
  set (r := run (provider (AxFulfilled fenced_completion))
                (database (DbRejected refused))
                (post_query (host := host) (ask "count the jobs")) tt).
  apply (proj1
           (reported_sql_is_executed_sql (host := host)
              (provider (AxFulfilled fenced_completion))
              (database (DbRejected refused))
              (ask "count the jobs") tt (fst (fst r)) (snd (fst r))
              (executed (lit "SELECT COUNT(*) FROM job_card;")
                 (DbRejected refused))
              ltac:(vm_compute; reflexivity))
           (lit "SELECT COUNT(*) FROM job_card;") (DbRejected refused)).
  vm_compute. right. right. left. reflexivity.
Defined.

Lemma post_query_rejects_iff_witness :
  (exists e,
      snd (run (provider (AxFulfilled fenced_completion)) (database all_rows)
               (post_query (host := host) hiding_query) tt) = Rejected e) /\
  snd (fst (run (provider (AxFulfilled fenced_completion)) (database all_rows)
                (post_query (host := host) hiding_query) tt)) = [].
Proof.
  set (r := run _ _ _ tt).
  destruct (post_query_rejects_iff (host := host)
              (provider (AxFulfilled fenced_completion)) (database all_rows)
              hiding_query tt (fst (fst r)) (snd (fst r)) (snd r)
              (Checks.triple_eta r)) as [[_ H1] H2].
  assert (R : exists e, snd r = Rejected e).
  { apply H1. right. split; reflexivity. }
  split; [exact R|]. exact (proj1 (H2 R)).
Defined.

Lemma post_query_status_codes_witness :
  status (executed (lit "SELECT COUNT(*) FROM job_card;") all_rows) = 400 \/
  status (executed (lit "SELECT COUNT(*) FROM job_card;") all_rows) = 500 \/
  status (executed (lit "SELECT COUNT(*) FROM job_card;") all_rows) = 200.
Proof.
  set (r := run (provider (AxFulfilled fenced_completion)) (database all_rows)
                (post_query (host := host) (ask "count the jobs")) tt).
  apply (proj1
           (post_query_status_codes (host := host)
              (provider (AxFulfilled fenced_completion)) (database all_rows)
              (ask "count the jobs") tt (fst (fst r)) (snd (fst r))
              (executed (lit "SELECT COUNT(*) FROM job_card;") all_rows)
              ltac:(vm_compute; reflexivity))).
Defined.

Lemma truthy_nlQuery_stringified_witness :
  exists w1 r rest resp,
    run (provider (AxRejected unreachable)) (database all_rows)
        (post_query (host := host)
           (obj [("nlQuery", obj [("table", JStr (lit "brand"))])])) tt =
      (w1,
       EvAxios GEMINI_URL
         (gemini_request (build_prompt (lit "[object Object]")))
         (gemini_config (host := host)) r :: rest,
       Returned resp).
Proof.
  apply (proj2
           (truthy_nlQuery_stringified (host := host)
              (provider (AxRejected unreachable)) (database all_rows)
              (obj [("nlQuery", obj [("table", JStr (lit "brand"))])]) tt
              eq_refl)
           [(lit "table", JStr (lit "brand"))]).
  - reflexivity.
  - reflexivity.
Defined.

Lemma joint_response_from_own_replies_witness :
  executed (lit "SELECT 2;") all_rows
    = expected_response (llm_reply (own Second (snd (fst joint))))
        (db_reply (own Second (snd (fst joint)))).
Proof.
  apply (joint_response_from_own_replies (host := host)
           (ask "count the jobs") (ask "list the brands")
           (snd (fst joint)) (snd joint) Second).
  - apply (run_schedule_interleave counting_provider counting_database
             [First; Second; Second; First; First; Second] 0 (fst (fst joint))).
    apply Checks.triple_eta.
  - vm_compute. reflexivity.
Defined.

Lemma generateSQL_failure_log_witness :
  In (EvConsole LvlError (lit "Empty Gemini response:")
        (JSON_stringify (Host := host) (completion (JStr (lit "  ")))))
     (snd (fst (run (provider (AxFulfilled (completion (JStr (lit "  ")))))
                    (database all_rows)
                    (generateSQL (host := host)
                       (JStr (lit "count the jobs"))) tt))).
Proof.
  set (r := run _ _ _ tt).
  apply (proj1
           (generateSQL_failure_log (host := host)
              (provider (AxFulfilled (completion (JStr (lit "  ")))))
              (database all_rows)
              (JStr (lit "count the jobs")) tt (fst (fst r)) (snd (fst r))
              (snd r) (Checks.triple_eta r))
           GEMINI_URL
           (gemini_request (build_prompt (lit "count the jobs")))
           (gemini_config (host := host))
           (completion (JStr (lit "  ")))).
  - left. reflexivity.
  - reflexivity.
Defined.

End CoverageChecks.
